(** * DataverseV0: the dynamic ETL extractor

    A shallow embedding of [app/dynamic_etl/etl/extract/extractor.py]:
    the two JSON flatteners ([deep_flatten_value] / [deep_flatten_row] and
    [flatten_json]), the shape resolution of [extract_json_safely], the
    list-column rectangularisation [normalize_list_columns] and the driver
    [extract_data], followed by the properties checked against them.

    Conventions.
    - A Python [str] is a Rocq [string]; a character is a code point below
      256, and the white space removed by [str.strip()] is the set Python
      uses in that range.
    - A Python [dict] is an association list in insertion order: assignment
      to a present key keeps the key's position, assignment to a new key
      appends.  Keys are [None] or a [str], the two kinds the source tests
      for.
    - A pandas [DataFrame] is its column labels and its rows of cells, the
      cells kept as the Python objects they hold; a key missing from a
      record is the float [nan].  Up-casting of numeric columns by pandas is
      outside the model.
    - [print] and [time.time] have no influence on the returned value and
      are left out. *)

From Stdlib Require Import List String Ascii Bool Arith ZArith Lia.
From Stdlib Require Import DecimalString.
Import ListNotations.
Open Scope string_scope.
Open Scope nat_scope.
Open Scope list_scope.

(* ================================================================== *)
(** ** Python strings *)
(* ================================================================== *)

Module PyStr.

(** [str.isspace] on one character, for code points below 256. *)
Definition is_space (c : ascii) : bool :=
  let n := nat_of_ascii c in
  ((9 <=? n) && (n <=? 13)) || ((28 <=? n) && (n <=? 32))
  || (n =? 133) || (n =? 160).

Definition is_underscore (c : ascii) : bool := Ascii.eqb c "_"%char.

Definition is_empty (s : string) : bool :=
  match s with EmptyString => true | String _ _ => false end.

Fixpoint lstrip_by (p : ascii -> bool) (s : string) : string :=
  match s with
  | EmptyString => EmptyString
  | String c s' => if p c then lstrip_by p s' else s
  end.

Fixpoint rstrip_by (p : ascii -> bool) (s : string) : string :=
  match s with
  | EmptyString => EmptyString
  | String c s' =>
      let r := rstrip_by p s' in
      if p c && is_empty r then EmptyString else String c r
  end.

(** [s.strip(chars)] with [p] the membership test of [chars]. *)
Definition strip_by (p : ascii -> bool) (s : string) : string :=
  rstrip_by p (lstrip_by p s).

(** [s.strip()] *)
Definition strip (s : string) : string := strip_by is_space s.

(** [s.strip("_")] *)
Definition strip_underscores (s : string) : string := strip_by is_underscore s.

(** [str(i)] for a list index. *)
Definition of_nat (i : nat) : string := NilZero.string_of_uint (Nat.to_uint i).

End PyStr.

(* ================================================================== *)
(** ** Python values *)
(* ================================================================== *)

(** A dictionary key: [None] or a string. *)
Definition pykey := option string.

(** [str(k)], as an f-string renders a key. *)
Definition str_of_key (k : pykey) : string :=
  match k with
  | None => "None"
  | Some s => s
  end.

Definition key_eqb (a b : pykey) : bool :=
  match a, b with
  | None, None => true
  | Some x, Some y => String.eqb x y
  | _, _ => false
  end.

(** A Python float, carried but never inspected by the extractor. *)
Inductive pyfloat : Type :=
| FNaN
| FInf (negative : bool)
| FFinite (mantissa exponent : Z).

Unset Elimination Schemes.
Inductive value : Type :=
| VNone
| VBool (b : bool)
| VInt (z : Z)
| VFloat (f : pyfloat)
| VStr (s : string)
| VList (l : list value)
| VDict (d : list (pykey * value)).
Set Elimination Schemes.

Definition dict := list (pykey * value).

(** The marker pandas stores where a record has no entry for a column. *)
Definition NaN : value := VFloat FNaN.

Section ValueInduction.
Variable P : value -> Prop.
Hypothesis HNone : P VNone.
Hypothesis HBool : forall b, P (VBool b).
Hypothesis HInt : forall z, P (VInt z).
Hypothesis HFloat : forall f, P (VFloat f).
Hypothesis HStr : forall s, P (VStr s).
Hypothesis HList : forall l, Forall P l -> P (VList l).
Hypothesis HDict : forall d, Forall (fun kv => P (snd kv)) d -> P (VDict d).

Fixpoint value_nested_ind (v : value) : P v :=
  match v with
  | VNone => HNone
  | VBool b => HBool b
  | VInt z => HInt z
  | VFloat f => HFloat f
  | VStr s => HStr s
  | VList l =>
      HList l
        ((fix elems (l : list value) : Forall P l :=
            match l with
            | [] => Forall_nil P
            | x :: l' => Forall_cons x (value_nested_ind x) (elems l')
            end) l)
  | VDict d =>
      HDict d
        ((fix items (d : list (pykey * value)) : Forall (fun kv => P (snd kv)) d :=
            match d with
            | [] => Forall_nil _
            | kv :: d' =>
                Forall_cons kv (value_nested_ind (snd kv)) (items d')
            end) d)
  end.
End ValueInduction.

Definition is_list (v : value) : bool :=
  match v with VList _ => true | _ => false end.

Definition is_dict (v : value) : bool :=
  match v with VDict _ => true | _ => false end.

(** A scalar is anything that is neither a [dict] nor a [list]. *)
Definition is_scalar (v : value) : bool := negb (is_list v) && negb (is_dict v).

(** [value if value is not None else ""] *)
Definition none_to_empty (v : value) : value :=
  match v with
  | VNone => VStr ""
  | _ => v
  end.

(* ================================================================== *)
(** ** Python dictionaries *)
(* ================================================================== *)

(** [d[k] = v] *)
Fixpoint dict_set (d : dict) (k : pykey) (v : value) : dict :=
  match d with
  | [] => [(k, v)]
  | (k', v') :: d' =>
      if key_eqb k' k then (k', v) :: d' else (k', v') :: dict_set d' k v
  end.

(** [d.get(k)] *)
Fixpoint dict_get (d : dict) (k : pykey) : option value :=
  match d with
  | [] => None
  | (k', v') :: d' => if key_eqb k' k then Some v' else dict_get d' k
  end.

Definition keys (d : dict) : list pykey := map fst d.
Definition values (d : dict) : list value := map snd d.

(** [enumerate(l)], counted from [i]. *)
Definition enumerate_from (i : nat) (l : list value) : list (nat * value) :=
  combine (seq i (List.length l)) l.

(* ================================================================== *)
(** ** 1. Universal JSON flattener *)
(* ================================================================== *)

(** [prefix in ("", None)] *)
Definition is_blank_prefix (prefix : pykey) : bool :=
  match prefix with
  | None => true
  | Some s => PyStr.is_empty s
  end.

(** [f"{prefix}_{k}".strip("_")] *)
Definition child_key (prefix : pykey) (segment : string) : pykey :=
  Some (PyStr.strip_underscores (str_of_key prefix ++ "_" ++ segment)%string).

Fixpoint deep_flatten_value (prefix : pykey) (v : value) (out : dict) {struct v} : dict :=
  if is_blank_prefix prefix then out
  else
    match v with
    | VDict d =>
        (fix items (d : list (pykey * value)) (out : dict) {struct d} : dict :=
           match d with
           | [] => out
           | (k, c) :: d' =>
               items d' (deep_flatten_value (child_key prefix (str_of_key k)) c out)
           end) d out
    | VList l =>
        (fix elems (l : list value) (i : nat) (out : dict) {struct l} : dict :=
           match l with
           | [] => out
           | c :: l' =>
               elems l' (S i) (deep_flatten_value (child_key prefix (PyStr.of_nat i)) c out)
           end) l 0 out
    | _ => dict_set out prefix (none_to_empty v)
    end.

Definition deep_flatten_row (row : dict) : dict :=
  fold_left (fun flat kv => deep_flatten_value (fst kv) (snd kv) flat) row [].

(* ================================================================== *)
(** ** 2. Smart JSON extractor *)
(* ================================================================== *)

Definition normalize_key (key : pykey) : string :=
  match key with
  | None => "unknown"
  | Some s => if PyStr.is_empty (PyStr.strip s) then "unknown" else s
  end.

(** The inner function [recurse] of [flatten_json]; the closure's [out] is
    threaded through. *)
Fixpoint recurse (v : value) (key_prefix : pykey) (out : dict) {struct v} : dict :=
  let key_prefix := normalize_key key_prefix in
  match v with
  | VDict d =>
      (fix items (d : list (pykey * value)) (out : dict) {struct d} : dict :=
         match d with
         | [] => out
         | (k, c) :: d' =>
             let nk := normalize_key k in
             items d' (recurse c (Some (key_prefix ++ "_" ++ nk)%string) out)
         end) d out
  | VList l =>
      (fix elems (l : list value) (i : nat) (out : dict) {struct l} : dict :=
         match l with
         | [] => out
         | item :: l' =>
             elems l' (S i) (recurse item (Some (key_prefix ++ "_" ++ PyStr.of_nat i)%string) out)
         end) l 0 out
  | _ =>
      let final_key := normalize_key (Some key_prefix) in
      dict_set out (Some final_key) (none_to_empty v)
  end.

Definition flatten_json (data : value) (prefix : pykey) : dict :=
  recurse data prefix [].

(** The default argument [prefix=""]. *)
Definition default_prefix : pykey := Some "".

(** [max(items, key=key)] on a non-empty sequence [first :: rest]: the
    running maximum is replaced only by a strictly larger element. *)
Fixpoint max_by {A : Type} (key : A -> nat) (best : A) (rest : list A) : A :=
  match rest with
  | [] => best
  | x :: rest' => max_by key (if key best <? key x then x else best) rest'
  end.

(** [len(v)] of a list value. *)
Definition list_len (v : value) : nat :=
  match v with VList l => List.length l | _ => 0 end.

(** The elements a [for] loop visits in a list value. *)
Definition list_items (v : value) : list value :=
  match v with VList l => l | _ => [] end.

(** [[(k, v) for k, v in data.items() if isinstance(v, list)]] *)
Definition list_candidates (data : dict) : list (pykey * value) :=
  filter (fun kv => is_list (snd kv)) data.

(** The inner loop "add non-list fields" of [extract_json_safely]. *)
Definition add_non_list_fields (data : dict) (flat : dict) : dict :=
  fold_left
    (fun flat kv => if is_list (snd kv) then flat else dict_set flat (fst kv) (snd kv))
    data flat.

(** The records [extract_json_safely] hands to [pd.DataFrame] for a parsed
    document: the three cases on the root, in the source's order. *)
Definition json_records (data : value) : list dict :=
  match data with
  | VList l => map (fun item => flatten_json item default_prefix) l
  | VDict d =>
      match list_candidates d with
      | first :: rest =>
          let (root_key, largest_list) :=
            max_by (fun x => list_len (snd x)) first rest in
          map (fun item => add_non_list_fields d (flatten_json item default_prefix))
              (list_items largest_list)
      | [] => [flatten_json data default_prefix]
      end
  | _ => [[(Some "value", data)]]
  end.

(* ================================================================== *)
(** ** pandas data frames *)
(* ================================================================== *)

Record DataFrame : Type := mkDataFrame {
  columns : list pykey;
  rows : list (list value)
}.

(** [pd.DataFrame()] *)
Definition empty_frame : DataFrame := mkDataFrame [] [].

Definition add_label (cols : list pykey) (k : pykey) : list pykey :=
  if existsb (key_eqb k) cols then cols else cols ++ [k].

(** The column labels of [pd.DataFrame(records)]: the keys of the records in
    order of first appearance. *)
Definition union_keys (records : list dict) : list pykey :=
  fold_left (fun cols r => fold_left add_label (keys r) cols) records [].

Definition record_cell (r : dict) (col : pykey) : value :=
  match dict_get r col with
  | Some v => v
  | None => NaN
  end.

(** [pd.DataFrame(records)] for a list of dictionaries. *)
Definition DataFrame_of_records (records : list dict) : DataFrame :=
  let cols := union_keys records in
  mkDataFrame cols (map (fun r => map (record_cell r) cols) records).

Fixpoint index_of (cols : list pykey) (col : pykey) : option nat :=
  match cols with
  | [] => None
  | c :: cols' =>
      if key_eqb c col then Some 0
      else option_map S (index_of cols' col)
  end.

Fixpoint set_nth {A : Type} (j : nat) (x : A) (l : list A) : list A :=
  match l, j with
  | [], _ => []
  | _ :: l', 0 => x :: l'
  | y :: l', S j' => y :: set_nth j' x l'
  end.

(** [df[col]] as the list of its cells, top to bottom. *)
Definition get_column (df : DataFrame) (col : pykey) : list value :=
  match index_of (columns df) col with
  | Some j => map (fun r => nth j r NaN) (rows df)
  | None => []
  end.

(** [df[col] = series]: an existing column is replaced in place, a new
    label is appended as the last column. *)
Definition set_column (df : DataFrame) (col : pykey) (series : list value) : DataFrame :=
  match index_of (columns df) col with
  | Some j =>
      mkDataFrame (columns df)
        (map (fun rx => set_nth j (snd rx) (fst rx)) (combine (rows df) series))
  | None =>
      mkDataFrame (columns df ++ [col])
        (map (fun rx => fst rx ++ [snd rx]) (combine (rows df) series))
  end.

(** [df.to_dict(orient="records")] *)
Definition to_dict_records (df : DataFrame) : list dict :=
  map (fun r => combine (columns df) r) (rows df).

(** [len(df)] *)
Definition frame_len (df : DataFrame) : nat := List.length (rows df).

(* ================================================================== *)
(** ** 3. Normalisation of irregular list columns *)
(* ================================================================== *)

(** [len(x) if isinstance(x, list) else 1] *)
Definition cell_len (x : value) : nat :=
  match x with VList l => List.length l | _ => 1 end.

(** [series.max()] on a non-empty series of lengths; 0 on the empty one,
    which the caller never asks for. *)
Definition series_max (l : list nat) : nat := fold_right Nat.max 0 l.

(** [x + [None] * (max_len - len(x)) if isinstance(x, list)
     else [x] + [None] * (max_len - 1)] *)
Definition pad_cell (max_len : nat) (x : value) : value :=
  match x with
  | VList l => VList (l ++ repeat VNone (max_len - List.length l))
  | _ => VList ([x] ++ repeat VNone (max_len - 1))
  end.

(** [series.apply(lambda x: ...)] with the padding above, for the
    [max_len] of the series. *)
Definition padded_series (series : list value) : list value :=
  let max_len := series_max (map cell_len series) in
  map (pad_cell max_len) series.

(** The body of the loop over the columns. *)
Definition normalize_column (df : DataFrame) (col : pykey) : DataFrame :=
  let series := get_column df col in
  if existsb is_list series then set_column df col (padded_series series)
  else df.

Definition normalize_list_columns (df : DataFrame) : DataFrame :=
  fold_left normalize_column (columns df) df.

(* ================================================================== *)
(** ** 4. The driver [extract_data] *)
(* ================================================================== *)

(** Exceptions, all of them instances of Python's [Exception]. *)
Inductive exn : Type :=
| FileNotFoundError (message : string)
| OtherException (name : string).

Inductive result (A : Type) : Type :=
| Ok (a : A)
| Raise (e : exn).
Arguments Ok {A} a.
Arguments Raise {A} e.

Definition bind {A B : Type} (r : result A) (k : A -> result B) : result B :=
  match r with
  | Ok a => k a
  | Raise e => Raise e
  end.

Notation "x <- r ;; k" := (bind r (fun x => k))
  (at level 61, r at next level, right associativity).

(** What the extractor asks of its surroundings: the file system, the JSON
    parser applied to an opened file, and the table of readers imported
    from [file_handlers]. *)
Record Env : Type := mkEnv {
  (** [os.path.exists(path)] *)
  path_exists : string -> bool;
  (** [with open(path, "r", encoding="utf-8") as f: json.load(f)] *)
  json_load : string -> result value;
  (** [READERS.get(file_type)] *)
  READERS : string -> option (string -> result DataFrame)
}.

Module PosixPath.

Definition is_sep (c : ascii) : bool := Ascii.eqb c "/"%char.
Definition is_dot (c : ascii) : bool := Ascii.eqb c "."%char.

Fixpoint contains (p : ascii -> bool) (s : string) : bool :=
  match s with
  | EmptyString => false
  | String c s' => p c || contains p s'
  end.

(** The part of a path after its last separator. *)
Fixpoint basename (s : string) : string :=
  match s with
  | EmptyString => EmptyString
  | String c s' =>
      if contains is_sep s' then basename s'
      else if is_sep c then s' else s
  end.

(** The extension of a base name: the suffix from its last dot, provided
    a character other than a dot comes before that dot. *)
Fixpoint ext_from (seen_non_dot : bool) (s : string) : string :=
  match s with
  | EmptyString => EmptyString
  | String c s' =>
      if is_dot c then
        if contains is_dot s' then ext_from seen_non_dot s'
        else if seen_non_dot then s else EmptyString
      else ext_from true s'
  end.

(** [os.path.splitext(path)[1]] *)
Definition splitext_ext (path : string) : string := ext_from false (basename path).

End PosixPath.

(** [c.lower()] on one character. *)
Definition lower_char (c : ascii) : ascii :=
  let n := nat_of_ascii c in
  if ((65 <=? n) && (n <=? 90))
     || ((192 <=? n) && (n <=? 222) && negb (n =? 215))
  then ascii_of_nat (n + 32) else c.

Fixpoint lower (s : string) : string :=
  match s with
  | EmptyString => EmptyString
  | String c s' => String (lower_char c) (lower s')
  end.

(** [s.replace(".", "")] *)
Fixpoint remove_dots (s : string) : string :=
  match s with
  | EmptyString => EmptyString
  | String c s' =>
      if PosixPath.is_dot c then remove_dots s' else String c (remove_dots s')
  end.

Definition detect_file_type (file_path : string) : string :=
  remove_dots (lower (PosixPath.splitext_ext file_path)).

Definition extract_json_safely (env : Env) (filepath : string) : result DataFrame :=
  data <- json_load env filepath ;;
  Ok (DataFrame_of_records (json_records data)).

(** The steps of [extract_data] after the frame has been read: list
    normalisation, then the deep flattening of every record. *)
Definition flatten_frame (df : DataFrame) : DataFrame :=
  let df := normalize_list_columns df in
  let records := to_dict_records df in
  let flat_records := map deep_flatten_row records in
  DataFrame_of_records flat_records.

(** The body of the [try] block. *)
Definition extract_data_body (env : Env) (file_path : string) : result DataFrame :=
  if negb (path_exists env file_path) then
    Raise (FileNotFoundError ("File not found: " ++ file_path))
  else
    let file_type := detect_file_type file_path in
    if String.eqb file_type "json" then
      df <- extract_json_safely env file_path ;;
      Ok (flatten_frame df)
    else
      match READERS env file_type with
      | None => Ok empty_frame
      | Some reader =>
          df <- reader file_path ;;
          Ok (flatten_frame df)
      end.

(** [try: ... except Exception: return pd.DataFrame()] *)
Definition extract_data (env : Env) (file_path : string) : DataFrame :=
  match extract_data_body env file_path with
  | Ok df => df
  | Raise _ => empty_frame
  end.

(* ================================================================== *)
(** ** Predicates on frames, keys and entries *)
(* ================================================================== *)

(** A frame as pandas builds it: distinct labels, and in every row one cell
    per label. *)
Definition well_formed (df : DataFrame) : Prop :=
  NoDup (columns df)
  /\ Forall (fun r => List.length r = List.length (columns df)) (rows df).

(** The greatest length among the list cells of a series, the other cells
    left out. *)
Definition max_list_len (series : list value) : nat :=
  series_max (map list_len (filter is_list series)).

(** The cell is a list of length [n]. *)
Definition list_of_length (n : nat) (x : value) : Prop :=
  exists l, x = VList l /\ List.length l = n.

(** The key is a string, and not the empty one. *)
Definition nonempty_key (k : pykey) : Prop :=
  exists s, k = Some s /\ s <> "".

Definition starts_with_underscore (s : string) : bool :=
  match s with
  | EmptyString => false
  | String c _ => PyStr.is_underscore c
  end.

(** The key is a string that does not begin with the separator. *)
Definition no_leading_separator (k : pykey) : Prop :=
  exists s, k = Some s /\ starts_with_underscore s = false.

(** The key is a string that begins with the placeholder. *)
Definition begins_with_unknown (k : pykey) : Prop :=
  exists s, k = Some s /\ String.prefix "unknown" s = true.

(** An entry of a flat row: a non-empty string key and a scalar other than
    [None]. *)
Definition flat_entry (kv : pykey * value) : Prop :=
  nonempty_key (fst kv) /\ is_scalar (snd kv) = true /\ snd kv <> VNone.

(* ================================================================== *)
(** ** Sample documents and frames *)
(* ================================================================== *)

Module Samples.

(** [{"id": 1, "items": [{"sku": "A", "tags": ["x","y"]},
                         {"sku": "B", "tags": ["z"]}]}] *)
Definition orders : value :=
  VDict
    [(Some "id", VInt 1);
     (Some "items",
      VList
        [VDict [(Some "sku", VStr "A"); (Some "tags", VList [VStr "x"; VStr "y"])];
         VDict [(Some "sku", VStr "B"); (Some "tags", VList [VStr "z"])]])].

Definition orders_path : string := "data/orders.json".

(** A world holding that one document and no reader. *)
Definition orders_env : Env :=
  mkEnv
    (fun p => String.eqb p orders_path)
    (fun p => if String.eqb p orders_path then Ok orders
              else Raise (OtherException "OSError"))
    (fun _ => None).

(** A world in which every path exists, no file parses as JSON and no
    reader is registered. *)
Definition bare_env : Env :=
  mkEnv
    (fun _ => true)
    (fun _ => Raise (OtherException "JSONDecodeError"))
    (fun _ => None).

(** What [extract_data] returns for it. *)
Definition orders_frame : DataFrame :=
  mkDataFrame
    [Some "unknown_sku"; Some "unknown_tags_0"; Some "unknown_tags_1"; Some "id"]
    [[VStr "A"; VStr "x"; VStr "y"; VInt 1];
     [VStr "B"; VStr "z"; NaN; VInt 1]].

(** A frame as a reader may return it: column [a] holds an empty list and
    two cells that are no lists, column [b] holds no list. *)
Definition ragged : DataFrame :=
  mkDataFrame
    [Some "a"; Some "b"]
    [[VList []; VInt 1];
     [VInt 5; VInt 2];
     [NaN; VStr "z"]].

(** A root with two list fields, of lengths 3 and 5, and two other fields. *)
Definition two_lists : dict :=
  [(Some "source", VStr "s");
   (Some "short", VList [VInt 1; VInt 2; VInt 3]);
   (Some "meta", VDict [(Some "v", VInt 7)]);
   (Some "long", VList [VInt 1; VInt 2; VInt 3; VInt 4; VInt 5])].

(** A root whose field [unknown_a] has the name the flattener gives to the
    field [a] of an element. *)
Definition colliding : dict :=
  [(Some "unknown_a", VInt 9);
   (Some "items", VList [VDict [(Some "a", VInt 1)]])].

End Samples.

(* ================================================================== *)
(** ** Keys and dictionaries: basic facts *)
(* ================================================================== *)

Lemma key_eqb_spec (a b : pykey) : reflect (a = b) (key_eqb a b).
Proof.
  destruct a as [x|], b as [y|]; simpl; try (constructor; congruence).
  destruct (String.eqb_spec x y); constructor; congruence.
Qed.

Lemma key_eqb_refl (a : pykey) : key_eqb a a = true.
Proof. destruct (key_eqb_spec a a); congruence. Qed.

Lemma key_eqb_neq (a b : pykey) : a <> b -> key_eqb a b = false.
Proof. destruct (key_eqb_spec a b); congruence. Qed.

Lemma dict_get_set (d : dict) (k k' : pykey) (v : value) :
  dict_get (dict_set d k v) k' = if key_eqb k k' then Some v else dict_get d k'.
Proof.
  induction d as [|[k0 v0] d IH]; simpl.
  - reflexivity.
  - destruct (key_eqb_spec k0 k) as [->|Hk]; simpl.
    + destruct (key_eqb k k'); reflexivity.
    + rewrite IH. destruct (key_eqb_spec k0 k') as [->|Hk'].
      * rewrite key_eqb_neq by congruence. reflexivity.
      * reflexivity.
Qed.

Lemma dict_get_set_same (d : dict) (k : pykey) (v : value) :
  dict_get (dict_set d k v) k = Some v.
Proof. rewrite dict_get_set, key_eqb_refl. reflexivity. Qed.

Lemma dict_set_fresh (d : dict) (k : pykey) (v : value) :
  ~ In k (keys d) -> dict_set d k v = d ++ [(k, v)].
Proof.
  induction d as [|[k0 v0] d IH]; simpl; intros Hk.
  - reflexivity.
  - rewrite key_eqb_neq by tauto. rewrite IH by tauto. reflexivity.
Qed.

Lemma keys_dict_set (d : dict) (k : pykey) (v : value) :
  keys (dict_set d k v) = if existsb (key_eqb k) (keys d) then keys d else keys d ++ [k].
Proof.
  induction d as [|[k0 v0] d IH]; simpl.
  - reflexivity.
  - destruct (key_eqb_spec k0 k) as [->|Hk]; simpl.
    + rewrite key_eqb_refl. reflexivity.
    + rewrite IH. rewrite (key_eqb_neq k k0) by congruence. simpl.
      destruct (existsb (key_eqb k) (keys d)); reflexivity.
Qed.

Lemma in_keys_dict_set (d : dict) (k k' : pykey) (v : value) :
  In k' (keys (dict_set d k v)) -> k' = k \/ In k' (keys d).
Proof.
  rewrite keys_dict_set. destruct (existsb (key_eqb k) (keys d)).
  - auto.
  - rewrite in_app_iff. simpl. intuition.
Qed.

Lemma in_values_dict_set (d : dict) (k : pykey) (v x : value) :
  In x (values (dict_set d k v)) -> x = v \/ In x (values d).
Proof.
  induction d as [|[k0 v0] d IH]; simpl.
  - intuition.
  - destruct (key_eqb k0 k); simpl; intuition.
Qed.

(* ================================================================== *)
(** ** The flatteners as folds *)
(* ================================================================== *)

Lemma recurse_dict (d : list (pykey * value)) (p : pykey) (out : dict) :
  recurse (VDict d) p out =
  fold_left
    (fun out kv =>
       recurse (snd kv)
         (Some (normalize_key p ++ "_" ++ normalize_key (fst kv))%string) out)
    d out.
Proof.
  simpl. revert out.
  induction d as [|[k c] d IH]; intros out; simpl.
  - reflexivity.
  - apply IH.
Qed.

Lemma recurse_list (l : list value) (p : pykey) (out : dict) :
  recurse (VList l) p out =
  fold_left
    (fun out iv =>
       recurse (snd iv)
         (Some (normalize_key p ++ "_" ++ PyStr.of_nat (fst iv))%string) out)
    (enumerate_from 0 l) out.
Proof.
  simpl. generalize 0 as i. revert out.
  induction l as [|c l IH]; intros out i; simpl.
  - reflexivity.
  - apply IH.
Qed.

Lemma recurse_scalar (v : value) (p : pykey) (out : dict) :
  is_scalar v = true ->
  recurse v p out =
  dict_set out (Some (normalize_key (Some (normalize_key p)))) (none_to_empty v).
Proof. destruct v; simpl; intros H; try reflexivity; discriminate. Qed.

Lemma deep_flatten_value_blank (p : pykey) (v : value) (out : dict) :
  is_blank_prefix p = true -> deep_flatten_value p v out = out.
Proof. intros H. destruct v; simpl; rewrite H; reflexivity. Qed.

Lemma deep_flatten_value_dict (d : list (pykey * value)) (p : pykey) (out : dict) :
  deep_flatten_value p (VDict d) out =
  if is_blank_prefix p then out
  else
    fold_left
      (fun out kv => deep_flatten_value (child_key p (str_of_key (fst kv))) (snd kv) out)
      d out.
Proof.
  simpl. destruct (is_blank_prefix p); [reflexivity|]. revert out.
  induction d as [|[k c] d IH]; intros out; simpl.
  - reflexivity.
  - apply IH.
Qed.

Lemma deep_flatten_value_list (l : list value) (p : pykey) (out : dict) :
  deep_flatten_value p (VList l) out =
  if is_blank_prefix p then out
  else
    fold_left
      (fun out iv => deep_flatten_value (child_key p (PyStr.of_nat (fst iv))) (snd iv) out)
      (enumerate_from 0 l) out.
Proof.
  simpl. destruct (is_blank_prefix p); [reflexivity|].
  generalize 0 as i. revert out.
  induction l as [|c l IH]; intros out i; simpl.
  - reflexivity.
  - apply IH.
Qed.

Lemma deep_flatten_value_scalar (v : value) (p : pykey) (out : dict) :
  is_scalar v = true ->
  deep_flatten_value p v out =
  if is_blank_prefix p then out else dict_set out p (none_to_empty v).
Proof. destruct v; simpl; intros H; try reflexivity; discriminate. Qed.

Lemma in_enumerate_from (i : nat) (l : list value) (iv : nat * value) :
  In iv (enumerate_from i l) -> In (snd iv) l.
Proof.
  unfold enumerate_from. destruct iv as [j x]. intros H.
  apply in_combine_r in H. exact H.
Qed.

(** A property of the entries that every write establishes is kept by a
    run of writes. *)
Lemma Forall_dict_set (G : pykey * value -> Prop) (out : dict) (k : pykey) (v : value) :
  Forall G out -> G (k, v) -> Forall G (dict_set out k v).
Proof.
  intros Hout Hkv. induction out as [|[k0 v0] out IH]; simpl.
  - constructor; [exact Hkv | constructor].
  - inversion Hout as [|? ? H0 Hrest]; subst.
    destruct (key_eqb_spec k0 k) as [->|Hne].
    + constructor; assumption.
    + constructor; [assumption | apply IH; assumption].
Qed.

Lemma fold_left_invariant {A B : Type} (Q : A -> Prop) (f : A -> B -> A) (l : list B) :
  (forall a b, In b l -> Q a -> Q (f a b)) ->
  forall a, Q a -> Q (fold_left f l a).
Proof.
  induction l as [|b l IH]; simpl; intros Hf a Ha.
  - exact Ha.
  - apply IH.
    + intros a' b' Hin. apply Hf. right. exact Hin.
    + apply Hf; [left; reflexivity | exact Ha].
Qed.

Lemma none_to_empty_scalar (v : value) :
  is_scalar v = true -> is_scalar (none_to_empty v) = true /\ none_to_empty v <> VNone.
Proof.
  destruct v; simpl; intros H; split; try reflexivity; try discriminate.
Qed.

Lemma normalize_key_nonempty (k : pykey) : normalize_key k <> "".
Proof.
  destruct k as [s|]; simpl; [|discriminate].
  destruct s as [|c s]; simpl; [discriminate|].
  destruct (PyStr.is_empty _); discriminate.
Qed.

Lemma is_blank_prefix_false (p : pykey) :
  is_blank_prefix p = false -> nonempty_key p.
Proof.
  destruct p as [s|]; simpl; [|discriminate].
  destruct s; [discriminate|]. intros _. eexists; split; [reflexivity | discriminate].
Qed.

Section RecurseInvariant.
Variable K : string -> Prop.
Variable V : value -> Prop.
Hypothesis K_normalize : forall s, K s -> K (normalize_key (Some s)).
Hypothesis K_join : forall s t, K s -> K (s ++ "_" ++ t)%string.
Hypothesis V_leaf : forall v, is_scalar v = true -> V (none_to_empty v).

Let entry_ok (kv : pykey * value) : Prop :=
  exists s, fst kv = Some s /\ K s /\ V (snd kv).

Lemma recurse_entries (v : value) :
  forall p out,
    K (normalize_key p) ->
    Forall entry_ok out -> Forall entry_ok (recurse v p out).
Proof.
  assert (Hleaf : forall v p out, is_scalar v = true -> K (normalize_key p) ->
              Forall entry_ok out -> Forall entry_ok (recurse v p out)).
  { intros w p out Hw Hp Hout. rewrite recurse_scalar by exact Hw.
    apply Forall_dict_set; [exact Hout|].
    eexists; repeat split; [apply K_normalize; exact Hp | apply V_leaf; exact Hw]. }
  induction v as [ | b | z | f | s | l IH | d IH] using value_nested_ind; intros p out Hp Hout;
    try (apply Hleaf; [reflexivity | assumption | assumption]).
  - rewrite recurse_list. apply fold_left_invariant; [|exact Hout].
    intros a iv Hin Ha. rewrite Forall_forall in IH.
    apply IH; [eapply in_enumerate_from; exact Hin | | exact Ha].
    apply K_normalize, K_join, Hp.
  - rewrite recurse_dict. apply fold_left_invariant; [|exact Hout].
    intros a kv Hin Ha. rewrite Forall_forall in IH.
    apply IH; [exact Hin | | exact Ha].
    apply K_normalize, K_join, Hp.
Qed.
End RecurseInvariant.

Section DeepInvariant.
Variable K : pykey -> Prop.
Variable G : pykey * value -> Prop.
Hypothesis K_child : forall p seg, K (child_key p seg).
Hypothesis G_leaf :
  forall p v, K p -> is_blank_prefix p = false -> is_scalar v = true ->
              G (p, none_to_empty v).

Lemma deep_entries (v : value) :
  forall p out, K p -> Forall G out -> Forall G (deep_flatten_value p v out).
Proof.
  assert (Hleaf : forall v p out, is_scalar v = true -> K p ->
              Forall G out -> Forall G (deep_flatten_value p v out)).
  { intros w p out Hw Hp Hout. rewrite deep_flatten_value_scalar by exact Hw.
    destruct (is_blank_prefix p) eqn:Hb; [exact Hout|].
    apply Forall_dict_set; [exact Hout|]. apply G_leaf; assumption. }
  induction v as [ | b | z | f | s | l IH | d IH] using value_nested_ind; intros p out Hp Hout;
    try (apply Hleaf; [reflexivity | assumption | assumption]).
  - rewrite deep_flatten_value_list.
    destruct (is_blank_prefix p); [exact Hout|].
    apply fold_left_invariant; [|exact Hout].
    intros a iv Hin Ha. rewrite Forall_forall in IH.
    apply IH; [eapply in_enumerate_from; exact Hin | apply K_child | exact Ha].
  - rewrite deep_flatten_value_dict.
    destruct (is_blank_prefix p); [exact Hout|].
    apply fold_left_invariant; [|exact Hout].
    intros a kv Hin Ha. rewrite Forall_forall in IH.
    apply IH; [exact Hin | apply K_child | exact Ha].
Qed.
End DeepInvariant.

(** Every entry either flattener writes is an entry of a flat row. *)
Lemma recurse_flat_entries (v : value) (p : pykey) (out : dict) :
  Forall flat_entry out -> Forall flat_entry (recurse v p out).
Proof.
  intros Hout.
  pose proof (recurse_entries (fun s => s <> "")
                (fun x => is_scalar x = true /\ x <> VNone)) as H.
  assert (Hconv : forall o : dict,
             Forall (fun kv => exists s, fst kv = Some s /\ s <> "" /\
                                     (is_scalar (snd kv) = true /\ snd kv <> VNone)) o
             <-> Forall flat_entry o).
  { intros o. split; apply Forall_impl; intros [k x]; unfold flat_entry, nonempty_key; simpl.
    - intros (s & -> & Hs & Hx). split; [eauto | exact Hx].
    - intros ((s & -> & Hs) & Hx). eauto. }
  apply Hconv. apply H.
  - intros s _. apply normalize_key_nonempty.
  - intros s t _. destruct s; simpl; discriminate || (destruct t; discriminate).
  - apply none_to_empty_scalar.
  - apply normalize_key_nonempty.
  - apply Hconv. exact Hout.
Qed.

Lemma deep_flat_entries (v : value) (p : pykey) (out : dict) :
  Forall flat_entry out -> Forall flat_entry (deep_flatten_value p v out).
Proof.
  apply (deep_entries (fun _ => True) flat_entry); [auto | | exact I].
  intros q x _ Hq Hx. unfold flat_entry; simpl.
  split; [apply is_blank_prefix_false; exact Hq | apply none_to_empty_scalar; exact Hx].
Qed.

Lemma deep_flatten_row_flat_entries (row : dict) :
  Forall flat_entry (deep_flatten_row row).
Proof.
  unfold deep_flatten_row. apply fold_left_invariant; [|constructor].
  intros a kv _ Ha. apply deep_flat_entries. exact Ha.
Qed.

(* ================================================================== *)
(** ** Facts on strings *)
(* ================================================================== *)

Lemma strip_by_head (p : ascii -> bool) (c : ascii) (s : string) :
  p c = false -> PyStr.strip_by p (String c s) = String c (PyStr.rstrip_by p s).
Proof. intros H. unfold PyStr.strip_by. simpl. rewrite H. simpl. rewrite H. reflexivity. Qed.

Lemma lstrip_by_head (p : ascii -> bool) (s : string) :
  match PyStr.lstrip_by p s with
  | EmptyString => True
  | String c _ => p c = false
  end.
Proof.
  induction s as [|c s IH]; simpl; [exact I|].
  destruct (p c) eqn:Hc; [exact IH | exact Hc].
Qed.

Lemma strip_by_no_leading (p : ascii -> bool) (s : string) :
  match PyStr.strip_by p s with
  | EmptyString => True
  | String c _ => p c = false
  end.
Proof.
  unfold PyStr.strip_by. pose proof (lstrip_by_head p s) as H.
  destruct (PyStr.lstrip_by p s) as [|c t]; simpl; [exact I|].
  rewrite H. simpl. exact H.
Qed.

Lemma prefix_app (u s t : string) :
  String.prefix u s = true -> String.prefix u (s ++ t) = true.
Proof.
  revert s. induction u as [|a u IH]; intros s Hs.
  - destruct (s ++ t)%string; reflexivity.
  - destruct s as [|b s]; simpl in *; [discriminate|].
    destruct (ascii_dec a b); [apply IH; exact Hs | discriminate].
Qed.

Lemma normalize_key_prefixed (c : ascii) (u s : string) :
  PyStr.is_space c = false ->
  String.prefix (String c u) s = true -> normalize_key (Some s) = s.
Proof.
  intros Hc Hp. destruct s as [|b s]; simpl in Hp; [discriminate|].
  destruct (ascii_dec c b) as [<-|]; [|discriminate].
  unfold normalize_key, PyStr.strip. rewrite strip_by_head by exact Hc. reflexivity.
Qed.

Lemma normalize_key_idempotent (k : pykey) :
  normalize_key (Some (normalize_key k)) = normalize_key k.
Proof.
  destruct k as [s|]; [|reflexivity].
  simpl. destruct (PyStr.is_empty (PyStr.strip s)) eqn:Hs.
  - reflexivity.
  - rewrite Hs. reflexivity.
Qed.

(** With a prefix that begins with a character that is no white space, every
    key written by [recurse] extends that prefix. *)
Lemma recurse_keys_prefixed (c : ascii) (u : string) (v : value) (p : pykey) (out : dict) :
  PyStr.is_space c = false ->
  String.prefix (String c u) (normalize_key p) = true ->
  Forall (fun k => exists s, k = Some s /\ String.prefix (String c u) s = true) (keys out) ->
  Forall (fun k => exists s, k = Some s /\ String.prefix (String c u) s = true)
         (keys (recurse v p out)).
Proof.
  intros Hc Hp Hout.
  pose proof (recurse_entries (fun s => String.prefix (String c u) s = true)
                (fun _ => True)) as H.
  assert (Hconv : forall o : dict,
             Forall (fun kv => exists s, fst kv = Some s /\
                                     String.prefix (String c u) s = true /\ True) o
             <-> Forall (fun k => exists s, k = Some s /\
                                     String.prefix (String c u) s = true) (keys o)).
  { intros o. unfold keys. rewrite Forall_map.
    split; apply Forall_impl; intros [k x]; simpl.
    - intros (s & -> & Hs & _). eauto.
    - intros (s & -> & Hs). eauto. }
  apply Hconv. apply H.
  - intros s Hs. rewrite (normalize_key_prefixed c u s Hc Hs). exact Hs.
  - intros s t Hs. apply prefix_app. exact Hs.
  - intros; exact I.
  - exact Hp.
  - apply Hconv. exact Hout.
Qed.

Lemma child_key_no_leading_separator (p : pykey) (seg : string) :
  no_leading_separator (child_key p seg).
Proof.
  unfold child_key, no_leading_separator, PyStr.strip_underscores.
  eexists; split; [reflexivity|].
  pose proof (strip_by_no_leading PyStr.is_underscore (str_of_key p ++ "_" ++ seg)) as H.
  destruct (PyStr.strip_by _ _); [reflexivity | exact H].
Qed.

(* ================================================================== *)
(** ** Properties of the flatteners *)
(* ================================================================== *)

Lemma flat_entries_no_none (d : dict) :
  Forall flat_entry d -> ~ In VNone (values d).
Proof.
  intros H Hin. unfold values in Hin. apply in_map_iff in Hin.
  destruct Hin as ([k x] & Hx & Hin). simpl in Hx. subst x.
  rewrite Forall_forall in H. destruct (H _ Hin) as (_ & _ & Hne).
  apply Hne. reflexivity.
Qed.

Lemma flat_entries_nonempty_keys (d : dict) :
  Forall flat_entry d -> Forall nonempty_key (keys d).
Proof.
  intros H. unfold keys. rewrite Forall_map.
  revert H. apply Forall_impl. intros kv (Hk & _). exact Hk.
Qed.

(** C7, the part the code does not do: a leaf that is absent, which pandas
    marks with the float [nan], is not stored as the empty string by either
    flattener; it stays in the row as it is. *)
Lemma absent_leaf_not_stored_as_empty_string :
  dict_get (deep_flatten_value (Some "tags_1") NaN []) (Some "tags_1")
  <> Some (VStr "")
  /\ dict_get (flatten_json NaN (Some "tags_1")) (Some "tags_1") <> Some (VStr "")
  /\ In NaN (values (deep_flatten_row [(Some "tags_1", NaN)])).
Proof.
  split; [vm_compute; discriminate|].
  split; [vm_compute; discriminate|].
  left. reflexivity.
Qed.

(** C7, as the code has it.  A leaf holding [None] under a non-empty prefix
    is stored as the empty string at its key, by [deep_flatten_value] and by
    the [recurse] of [flatten_json], and no row produced by either flattener
    holds [None] anywhere; a leaf holding the marker of an absent cell, the
    float [nan], is stored at its key as it is. *)
Theorem none_leaf_stored_as_empty_string (prefix : pykey) (out : dict) :
  is_blank_prefix prefix = false ->
  dict_get (deep_flatten_value prefix VNone out) prefix = Some (VStr "")
  /\ dict_get (recurse VNone prefix out) (Some (normalize_key prefix)) = Some (VStr "")
  /\ (forall row, ~ In VNone (values (deep_flatten_row row)))
  /\ (forall data p, ~ In VNone (values (flatten_json data p)))
  /\ dict_get (deep_flatten_value prefix NaN out) prefix = Some NaN
  /\ dict_get (recurse NaN prefix out) (Some (normalize_key prefix)) = Some NaN.
Proof.
  intros Hp. refine (conj _ (conj _ (conj _ (conj _ (conj _ _))))).
  6:{ rewrite recurse_scalar by reflexivity. rewrite normalize_key_idempotent.
      apply dict_get_set_same. }
  5:{ rewrite deep_flatten_value_scalar by reflexivity. rewrite Hp.
      apply dict_get_set_same. }
  - rewrite deep_flatten_value_scalar by reflexivity. rewrite Hp.
    apply dict_get_set_same.
  - rewrite recurse_scalar by reflexivity. rewrite normalize_key_idempotent.
    apply dict_get_set_same.
  - intros row. apply flat_entries_no_none, deep_flatten_row_flat_entries.
  - intros data p. apply flat_entries_no_none. unfold flatten_json.
    apply recurse_flat_entries. constructor.
Qed.

Lemma none_leaf_stored_as_empty_string_witness :
  is_blank_prefix (Some "note") = false
  /\ dict_get (deep_flatten_value (Some "note") VNone [(Some "id", VInt 1)]) (Some "note")
     = Some (VStr "")
  /\ dict_get (recurse VNone (Some "note") [(Some "id", VInt 1)]) (Some "note")
     = Some (VStr "")
  /\ dict_get (deep_flatten_value (Some "note") NaN [(Some "id", VInt 1)]) (Some "note")
     = Some NaN.
Proof.
  split; [reflexivity|].
  pose proof (none_leaf_stored_as_empty_string (Some "note") [(Some "id", VInt 1)]
                eq_refl) as (H1 & H2 & _ & _ & H5 & _).
  split; [exact H1 | split; [exact H2 | exact H5]].
Defined.

(** C6, the part the code does not do: content under an empty or [None]
    key of the document is not found under the key ["unknown"]. *)
Lemma blank_key_content_not_under_unknown :
  dict_get (flatten_json (VDict [(Some "", VInt 5)]) default_prefix) (Some "unknown")
  <> Some (VInt 5)
  /\ dict_get (flatten_json (VDict [(None, VInt 5)]) default_prefix) (Some "unknown")
     <> Some (VInt 5).
Proof. split; vm_compute; discriminate. Qed.

(** C6, as the code has it.  Every key of a row produced by [flatten_json]
    is a non-empty string; so is every key of a row produced by
    [deep_flatten_value] or [deep_flatten_row] from keys that are strings or
    [None], the keys of this development (a top-level key of another type,
    such as an integer column label, is not covered); and the content of a
    document that lies under a [None] or empty key is flattened under the
    prefix ["unknown_unknown"], every resulting key beginning with it. *)
Theorem flat_keys_nonempty_blank_key_unknown_unknown :
  (forall data prefix, Forall nonempty_key (keys (flatten_json data prefix)))
  /\ (forall prefix v, Forall nonempty_key (keys (deep_flatten_value prefix v [])))
  /\ (forall row, Forall nonempty_key (keys (deep_flatten_row row)))
  /\ (forall v, flatten_json (VDict [(None, v)]) default_prefix
                = flatten_json v (Some "unknown_unknown"))
  /\ (forall v, flatten_json (VDict [(Some "", v)]) default_prefix
                = flatten_json v (Some "unknown_unknown"))
  /\ (forall v, Forall (fun k => exists s, k = Some s
                                  /\ String.prefix "unknown_unknown" s = true)
                       (keys (flatten_json v (Some "unknown_unknown")))).
Proof.
  refine (conj _ (conj _ (conj _ (conj _ (conj _ _))))).
  - intros data prefix. apply flat_entries_nonempty_keys. unfold flatten_json.
    apply recurse_flat_entries. constructor.
  - intros prefix v. apply flat_entries_nonempty_keys, deep_flat_entries. constructor.
  - intros row. apply flat_entries_nonempty_keys, deep_flatten_row_flat_entries.
  - intros v. unfold flatten_json. rewrite recurse_dict. reflexivity.
  - intros v. unfold flatten_json. rewrite recurse_dict. reflexivity.
  - intros v. unfold flatten_json.
    apply (recurse_keys_prefixed "u"%char "nknown_unknown");
      [reflexivity | reflexivity | constructor].
Qed.

(** C2, the part the code does not do: with the empty initial prefix
    [flatten_json] does not use a top-level key alone, and a top-level key
    of a row that begins with the separator is kept by [deep_flatten_row]. *)
Lemma top_level_key_not_used_alone :
  flatten_json (VDict [(Some "a", VInt 1)]) default_prefix <> [(Some "a", VInt 1)]
  /\ ~ Forall no_leading_separator (keys (deep_flatten_row [(Some "_a", VInt 1)])).
Proof.
  split.
  - vm_compute. discriminate.
  - vm_compute. intros H. inversion H as [|k l (s & Hs & Hlead) Hl]; subst.
    injection Hs as <-. discriminate.
Qed.

(** C2, as the code has it.  In [flatten_json] a child of a map is
    flattened under normalize(prefix) + "_" + normalize(key), where the empty
    prefix normalizes to ["unknown"], so with the default prefix every key
    begins with ["unknown"].  In [deep_flatten_value] nothing is written
    under an empty or [None] prefix; otherwise a child of a map is flattened
    under str(prefix) + "_" + str(key) with the separators at both ends
    stripped, and no key written below a map begins with the separator. *)
Theorem child_prefix_composition :
  (forall d p out,
      recurse (VDict d) p out =
      fold_left
        (fun out kv =>
           recurse (snd kv)
             (Some (normalize_key p ++ "_" ++ normalize_key (fst kv))%string) out)
        d out)
  /\ normalize_key default_prefix = "unknown"
  /\ (forall data, Forall begins_with_unknown (keys (flatten_json data default_prefix)))
  /\ (forall d p out,
         deep_flatten_value p (VDict d) out =
         if is_blank_prefix p then out
         else
           fold_left
             (fun out kv =>
                deep_flatten_value
                  (Some (PyStr.strip_underscores
                           (str_of_key p ++ "_" ++ str_of_key (fst kv))%string))
                  (snd kv) out)
             d out)
  /\ (forall d p, Forall no_leading_separator (keys (deep_flatten_value p (VDict d) []))).
Proof.
  refine (conj _ (conj _ (conj _ (conj _ _)))).
  - intros d p out. apply recurse_dict.
  - reflexivity.
  - intros data. unfold flatten_json.
    apply (recurse_keys_prefixed "u"%char "nknown");
      [reflexivity | reflexivity | constructor].
  - intros d p out. apply deep_flatten_value_dict.
  - intros d p. rewrite deep_flatten_value_dict.
    destruct (is_blank_prefix p); [constructor|].
    unfold keys. rewrite Forall_map.
    apply fold_left_invariant; [|constructor].
    intros a kv _ Ha.
    apply (deep_entries no_leading_separator (fun e => no_leading_separator (fst e)));
      [apply child_key_no_leading_separator | | apply child_key_no_leading_separator | exact Ha].
    intros q x Hq _ _. exact Hq.
Qed.

Lemma deep_flatten_fold_flat (row acc : dict) :
  NoDup (keys row) ->
  Forall (fun kv => is_scalar (snd kv) = true) row ->
  (forall k, In k (keys row) -> ~ In k (keys acc)) ->
  fold_left (fun flat kv => deep_flatten_value (fst kv) (snd kv) flat) row acc =
  acc ++ map (fun kv => (fst kv, none_to_empty (snd kv)))
             (filter (fun kv => negb (is_blank_prefix (fst kv))) row).
Proof.
  revert acc. induction row as [|[k v] row IH]; intros acc Hnd Hsc Hfresh; simpl.
  - rewrite app_nil_r. reflexivity.
  - simpl in Hnd. inversion Hnd as [|? ? Hk Hnd']; subst.
    inversion Hsc as [|? ? Hv Hsc']; subst. simpl in Hv.
    rewrite deep_flatten_value_scalar by exact Hv.
    destruct (is_blank_prefix k) eqn:Hb; simpl.
    + apply IH; try assumption.
      intros k' Hk'. apply Hfresh. right. exact Hk'.
    + rewrite dict_set_fresh by (apply Hfresh; left; reflexivity).
      rewrite IH; try assumption.
      * rewrite <- app_assoc. reflexivity.
      * intros k' Hk' Hin. unfold keys in Hin. rewrite map_app, in_app_iff in Hin.
        simpl in Hin. destruct Hin as [Hin | [<- | []]].
        -- apply (Hfresh k'); [right; exact Hk' | exact Hin].
        -- apply Hk. exact Hk'.
Qed.

Lemma dict_set_NoDup (d : dict) (k : pykey) (v : value) :
  NoDup (keys d) -> NoDup (keys (dict_set d k v)).
Proof.
  intros Hnd. rewrite keys_dict_set.
  destruct (existsb (key_eqb k) (keys d)) eqn:Hex; [exact Hnd|].
  apply NoDup_app; [exact Hnd | repeat constructor; intros [] | ].
  intros x Hx [Heq | []]. subst x.
  assert (Htrue : existsb (key_eqb k) (keys d) = true).
  { apply existsb_exists. exists k. split; [exact Hx | apply key_eqb_refl]. }
  congruence.
Qed.

Section DeepState.
Variable Q : dict -> Prop.
Hypothesis Q_set : forall out k v, Q out -> Q (dict_set out k v).

Lemma deep_flatten_value_state (v : value) :
  forall p out, Q out -> Q (deep_flatten_value p v out).
Proof.
  assert (Hleaf : forall v p out, is_scalar v = true ->
              Q out -> Q (deep_flatten_value p v out)).
  { intros w p out Hw Hout. rewrite deep_flatten_value_scalar by exact Hw.
    destruct (is_blank_prefix p); [exact Hout | apply Q_set; exact Hout]. }
  induction v as [ | b | z | f | s | l IH | d IH] using value_nested_ind; intros p out Hout;
    try (apply Hleaf; [reflexivity | assumption]).
  - rewrite deep_flatten_value_list.
    destruct (is_blank_prefix p); [exact Hout|].
    apply fold_left_invariant; [|exact Hout].
    intros a iv Hin Ha. rewrite Forall_forall in IH.
    apply IH; [eapply in_enumerate_from; exact Hin | exact Ha].
  - rewrite deep_flatten_value_dict.
    destruct (is_blank_prefix p); [exact Hout|].
    apply fold_left_invariant; [|exact Hout].
    intros a kv Hin Ha. rewrite Forall_forall in IH.
    apply IH; [exact Hin | exact Ha].
Qed.
End DeepState.

Lemma deep_flatten_row_NoDup (row : dict) : NoDup (keys (deep_flatten_row row)).
Proof.
  unfold deep_flatten_row.
  apply (fold_left_invariant (fun o => NoDup (keys o))); [|constructor].
  intros a kv _ Ha.
  apply (deep_flatten_value_state (fun o => NoDup (keys o))); [|exact Ha].
  intros out k v. apply dict_set_NoDup.
Qed.

Lemma deep_flatten_row_fixed (row : dict) :
  NoDup (keys row) ->
  Forall (fun kv => is_scalar (snd kv) = true
                    /\ is_blank_prefix (fst kv) = false /\ snd kv <> VNone) row ->
  deep_flatten_row row = row.
Proof.
  intros Hnd Hflat. unfold deep_flatten_row.
  rewrite deep_flatten_fold_flat; [ | exact Hnd | | intros k _ []].
  - simpl. clear Hnd.
    induction Hflat as [|[k v] row (Hv & Hk & Hne) _ IH]; simpl; [reflexivity|].
    simpl in Hv, Hk, Hne. rewrite Hk. simpl. rewrite IH.
    destruct v; try reflexivity. congruence.
  - revert Hflat. apply Forall_impl. intros kv (H & _). exact H.
Qed.

Lemma flat_entry_fixed_conditions (d : dict) :
  Forall flat_entry d ->
  Forall (fun kv => is_scalar (snd kv) = true
                    /\ is_blank_prefix (fst kv) = false /\ snd kv <> VNone) d.
Proof.
  apply Forall_impl. intros [k v] ((s & Hk & Hs) & Hv & Hne). simpl in *.
  subst k. repeat split; try assumption. destruct s; [congruence | reflexivity].
Qed.

(** C8, the part the code does not do: a flat row whose value is [None] is
    not returned unchanged, although its key is a non-empty string. *)
Lemma flat_row_with_none_is_changed :
  Forall (fun kv => is_scalar (snd kv) = true) [(Some "a", VNone)]
  /\ Forall nonempty_key (keys [(Some "a", VNone)])
  /\ deep_flatten_row [(Some "a", VNone)] <> [(Some "a", VNone)].
Proof.
  split; [repeat constructor|].
  split; [constructor; [eexists; split; [reflexivity | discriminate] | constructor]|].
  vm_compute. discriminate.
Qed.

(** C8, as the code has it.  On a row whose values are all scalars
    [deep_flatten_row] keeps the entries in their order, drops those under an
    empty or [None] key and replaces a [None] value by the empty string; keys
    are never rewritten.  So a row whose keys are non-empty strings and whose
    values are scalars other than [None] is returned unchanged, and
    re-flattening the result returns it again. *)
Theorem deep_flatten_row_on_flat_row (row : dict) :
  NoDup (keys row) ->
  Forall (fun kv => is_scalar (snd kv) = true) row ->
  deep_flatten_row row =
    map (fun kv => (fst kv, none_to_empty (snd kv)))
        (filter (fun kv => negb (is_blank_prefix (fst kv))) row)
  /\ (Forall (fun kv => is_blank_prefix (fst kv) = false /\ snd kv <> VNone) row ->
      deep_flatten_row row = row)
  /\ deep_flatten_row (deep_flatten_row row) = deep_flatten_row row.
Proof.
  intros Hnd Hsc. refine (conj _ (conj _ _)).
  - unfold deep_flatten_row. rewrite deep_flatten_fold_flat; auto.
  - intros Hflat. apply deep_flatten_row_fixed; [exact Hnd|].
    rewrite Forall_forall in *. intros kv Hin.
    destruct (Hflat kv Hin) as (Hk & Hne). auto.
  - apply deep_flatten_row_fixed.
    + apply deep_flatten_row_NoDup.
    + apply flat_entry_fixed_conditions, deep_flatten_row_flat_entries.
Qed.

Lemma deep_flatten_row_on_flat_row_witness :
  NoDup (keys [(Some "id", VInt 1); (Some "", VInt 2); (Some "note", VNone)])
  /\ deep_flatten_row [(Some "id", VInt 1); (Some "", VInt 2); (Some "note", VNone)]
     = [(Some "id", VInt 1); (Some "note", VStr "")]
  /\ deep_flatten_row [(Some "id", VInt 1); (Some "_sku", VStr "A")]
     = [(Some "id", VInt 1); (Some "_sku", VStr "A")].
Proof.
  assert (N3 : NoDup (keys [(Some "id", VInt 1); (Some "", VInt 2); (Some "note", VNone)])).
  { simpl. repeat constructor; simpl; intuition discriminate. }
  assert (N2 : NoDup (keys [(Some "id", VInt 1); (Some "_sku", VStr "A")])).
  { simpl. repeat constructor; simpl; intuition discriminate. }
  split; [exact N3|]. split.
  - exact (proj1 (deep_flatten_row_on_flat_row _ N3
                    ltac:(repeat constructor))).
  - refine (proj1 (proj2 (deep_flatten_row_on_flat_row _ N2
                            ltac:(repeat constructor))) _).
    repeat constructor; simpl; discriminate.
Defined.

(* ================================================================== *)
(** ** Properties of the shape resolution *)
(* ================================================================== *)

Lemma max_by_split {A : Type} (key : A -> nat) (rest : list A) :
  forall (seen_before : list A) (best : A) (seen_after : list A),
    Forall (fun x => key x < key best) seen_before ->
    Forall (fun x => key x <= key best) seen_after ->
    exists before after,
      seen_before ++ best :: seen_after ++ rest
      = before ++ max_by key best rest :: after
      /\ Forall (fun x => key x < key (max_by key best rest)) before
      /\ Forall (fun x => key x <= key (max_by key best rest)) after.
Proof.
  induction rest as [|x rest IH]; intros sb best sa Hsb Hsa; simpl.
  - exists sb, sa. rewrite app_nil_r. auto.
  - destruct (Nat.ltb_spec (key best) (key x)) as [Hlt | Hge].
    + destruct (IH (sb ++ best :: sa) x []) as (before & after & Heq & Hb & Ha).
      * apply Forall_app. split.
        -- revert Hsb. apply Forall_impl. intros; lia.
        -- constructor; [exact Hlt|].
           revert Hsa. apply Forall_impl. intros; lia.
      * constructor.
      * exists before, after. split; [|auto].
        rewrite <- Heq. rewrite <- app_assoc. reflexivity.
    + destruct (IH sb best (sa ++ [x])) as (before & after & Heq & Hb & Ha).
      * exact Hsb.
      * apply Forall_app. split; [exact Hsa | constructor; [exact Hge | constructor]].
      * exists before, after. split; [|auto].
        rewrite <- Heq. rewrite <- app_assoc. reflexivity.
Qed.

Lemma add_non_list_fields_get_other (d flat : dict) (k : pykey) :
  (forall v, In (k, v) d -> is_list v = true) ->
  dict_get (add_non_list_fields d flat) k = dict_get flat k.
Proof.
  unfold add_non_list_fields. revert flat.
  induction d as [|[k0 v0] d IH]; intros flat Hk; simpl.
  - reflexivity.
  - rewrite IH by (intros v Hv; apply Hk; right; exact Hv).
    destruct (is_list v0) eqn:Hl; [reflexivity|].
    rewrite dict_get_set.
    destruct (key_eqb_spec k0 k) as [->|Hne]; [|reflexivity].
    rewrite (Hk v0) in Hl by (left; reflexivity). discriminate.
Qed.

Lemma add_non_list_fields_get (d flat : dict) (k : pykey) (v : value) :
  NoDup (keys d) -> In (k, v) d -> is_list v = false ->
  dict_get (add_non_list_fields d flat) k = Some v.
Proof.
  unfold add_non_list_fields. revert flat.
  induction d as [|[k0 v0] d IH]; intros flat Hnd Hin Hv; simpl.
  - destruct Hin.
  - simpl in Hnd. inversion Hnd as [|? ? Hk0 Hnd']; subst.
    destruct Hin as [Heq | Hin].
    + injection Heq as -> ->. rewrite Hv.
      change (dict_get (add_non_list_fields d (dict_set flat k v)) k = Some v).
      rewrite add_non_list_fields_get_other.
      * apply dict_get_set_same.
      * intros v' Hv'. exfalso. apply Hk0.
        unfold keys. apply in_map_iff. exists (k, v'). auto.
    + apply IH; assumption.
Qed.

Lemma frame_len_of_records (records : list dict) :
  frame_len (DataFrame_of_records records) = List.length records.
Proof. unfold frame_len, DataFrame_of_records. simpl. apply length_map. Qed.

(** The list field chosen by [extract_json_safely], with what lies before
    and after it among the list fields of the root. *)
Lemma json_records_choice (d : dict) :
  list_candidates d <> [] ->
  exists before root_key largest after,
    list_candidates d = before ++ (root_key, VList largest) :: after
    /\ Forall (fun kv => list_len (snd kv) < List.length largest) before
    /\ Forall (fun kv => list_len (snd kv) <= List.length largest) after
    /\ json_records (VDict d)
       = map (fun item => add_non_list_fields d (flatten_json item default_prefix))
             largest.
Proof.
  intros Hne. unfold json_records.
  destruct (list_candidates d) as [|first rest] eqn:Hc; [congruence|].
  destruct (max_by_split (fun x => list_len (snd x)) rest [] first [])
    as (before & after & Heq & Hb & Ha); [constructor | constructor |].
  simpl in Heq.
  destruct (max_by (fun x => list_len (snd x)) first rest) as [root_key chosen] eqn:Hm.
  assert (Hin : In (root_key, chosen) (list_candidates d)).
  { rewrite Hc, Heq. apply in_elt. }
  unfold list_candidates in Hin. apply filter_In in Hin.
  destruct Hin as [_ Hl]. simpl in Hl.
  destruct chosen as [ | | | | | largest | ]; try discriminate.
  exists before, root_key, largest, after. simpl in *. auto.
Qed.

(** C4.  For a root map with at least one list field, [extract_json_safely]
    chooses the list field of greatest length, the first such in the order
    of the map (every list field before it is strictly shorter, none after
    it is longer); its records are, in order, one per element of that very
    list -- the element flattened, then the non-list fields of the root
    assigned -- hence a frame with as many rows, and every record holds every
    non-list field of the root; with two list fields of lengths 3 and 5 the
    frame has 5 rows, and with two list fields of which the second is no
    longer than the first the records are those of the first. *)
Theorem largest_list_one_row_per_element (d : dict) :
  NoDup (keys d) ->
  list_candidates d <> [] ->
  exists before root_key largest after,
    list_candidates d = before ++ (root_key, VList largest) :: after
    /\ Forall (fun kv => list_len (snd kv) < List.length largest) before
    /\ Forall (fun kv => list_len (snd kv) <= List.length largest) after
    /\ json_records (VDict d)
       = map (fun item => add_non_list_fields d (flatten_json item default_prefix))
             largest
    /\ List.length (json_records (VDict d)) = List.length largest
    /\ frame_len (DataFrame_of_records (json_records (VDict d))) = List.length largest
    /\ (forall row k v,
           In row (json_records (VDict d)) -> In (k, v) d -> is_list v = false ->
           dict_get row k = Some v /\ record_cell row k = v)
    /\ (forall k1 l1 k2 l2,
           list_candidates d = [(k1, VList l1); (k2, VList l2)] ->
           (List.length l1 = 3 /\ List.length l2 = 5)
           \/ (List.length l1 = 5 /\ List.length l2 = 3) ->
           frame_len (DataFrame_of_records (json_records (VDict d))) = 5)
    /\ (forall k1 l1 k2 l2,
           list_candidates d = [(k1, VList l1); (k2, VList l2)] ->
           List.length l2 <= List.length l1 ->
           json_records (VDict d)
           = map (fun item => add_non_list_fields d (flatten_json item default_prefix))
                 l1).
Proof.
  intros Hnd Hne.
  destruct (json_records_choice d Hne)
    as (before & root_key & largest & after & Hc & Hb & Ha & Hrec).
  assert (Hlen : List.length (json_records (VDict d)) = List.length largest).
  { rewrite Hrec. apply length_map. }
  exists before, root_key, largest, after.
  refine (conj Hc (conj Hb (conj Ha (conj Hrec (conj Hlen (conj _ (conj _ (conj _ _)))))))).
  4:{ intros k1 l1 k2 l2 Hc2 Hle. rewrite Hrec. rewrite Hc2 in Hc.
      destruct before as [|b0 before].
      - simpl in Hc. injection Hc as _ Hl1 _. subst largest. reflexivity.
      - destruct before as [|b1 before].
        + simpl in Hc. injection Hc as Hb0 _ Hl2 _. subst b0 largest.
          inversion Hb as [|? ? Hlt _]; subst. simpl in Hlt. lia.
        + simpl in Hc. injection Hc as _ _ Hnil.
          destruct before; discriminate. }
  - rewrite frame_len_of_records. exact Hlen.
  - intros row k v Hrow Hin Hv. rewrite Hrec in Hrow.
    apply in_map_iff in Hrow. destruct Hrow as (item & <- & _).
    assert (Hget : dict_get (add_non_list_fields d (flatten_json item default_prefix)) k
                   = Some v)
      by (apply add_non_list_fields_get; assumption).
    split; [exact Hget|]. unfold record_cell. rewrite Hget. reflexivity.
  - intros k1 l1 k2 l2 Hc2 Hlens. rewrite frame_len_of_records, Hlen.
    rewrite Hc2 in Hc.
    destruct before as [|b0 before].
    + simpl in Hc. injection Hc as _ Hl1 Hafter. subst largest after.
      inversion Ha as [|? ? Hle _]; subst. simpl in Hle. lia.
    + destruct before as [|b1 before].
      * simpl in Hc. injection Hc as Hb0 _ Hl2 _. subst b0 largest.
        inversion Hb as [|? ? Hlt _]; subst. simpl in Hlt. lia.
      * simpl in Hc. injection Hc as _ _ Hnil.
        destruct before; discriminate.
Qed.

Lemma largest_list_one_row_per_element_witness :
  NoDup (keys Samples.two_lists)
  /\ list_candidates Samples.two_lists <> []
  /\ frame_len (DataFrame_of_records (json_records (VDict Samples.two_lists))) = 5
  /\ json_records (VDict [(Some "a", VList [VInt 1; VInt 2]);
                          (Some "b", VList [VInt 3; VInt 4])])
     = [[(Some "unknown", VInt 1)]; [(Some "unknown", VInt 2)]].
Proof.
  assert (Hnd : NoDup (keys Samples.two_lists)).
  { simpl. repeat constructor; simpl; intuition discriminate. }
  assert (Hne : list_candidates Samples.two_lists <> []) by discriminate.
  split; [exact Hnd|]. split; [exact Hne|]. split.
  - destruct (largest_list_one_row_per_element Samples.two_lists Hnd Hne)
      as (before & root_key & largest & after & _ & _ & _ & _ & _ & _ & _ & H35 & _).
    apply (H35 (Some "short") [VInt 1; VInt 2; VInt 3]
               (Some "long") [VInt 1; VInt 2; VInt 3; VInt 4; VInt 5]).
    + reflexivity.
    + left. split; reflexivity.
  - assert (Hnd2 : NoDup (keys [(Some "a", VList [VInt 1; VInt 2]);
                                (Some "b", VList [VInt 3; VInt 4])])).
    { simpl. repeat constructor; simpl; intuition discriminate. }
    destruct (largest_list_one_row_per_element
                [(Some "a", VList [VInt 1; VInt 2]); (Some "b", VList [VInt 3; VInt 4])]
                Hnd2 ltac:(discriminate))
      as (before & root_key & largest & after & _ & _ & _ & _ & _ & _ & _ & _ & Htie).
    apply (Htie (Some "a") [VInt 1; VInt 2] (Some "b") [VInt 3; VInt 4]).
    + reflexivity.
    + simpl. lia.
Defined.

(** C10.  The non-list fields of the root are assigned into each record
    after the element has been flattened: the record of an element is the
    flattened element with those assignments applied in the order of the
    root, so whatever the flattened element held under such a key, the
    record holds the root's value, as it is, under the root's key, as it
    is; the other entries of the flattened element are kept. *)
Theorem root_fields_overwrite_flattened_element (d : dict) (k : pykey) (v : value) :
  NoDup (keys d) ->
  In (k, v) d ->
  is_list v = false ->
  list_candidates d <> [] ->
  (forall flat, dict_get (add_non_list_fields d flat) k = Some v)
  /\ (forall flat k',
         (forall v', In (k', v') d -> is_list v' = true) ->
         dict_get (add_non_list_fields d flat) k' = dict_get flat k')
  /\ (forall row,
         In row (json_records (VDict d)) ->
         exists item,
           row = add_non_list_fields d (flatten_json item default_prefix)
           /\ dict_get row k = Some v).
Proof.
  intros Hnd Hin Hv Hne.
  refine (conj _ (conj _ _)).
  - intros flat. apply add_non_list_fields_get; assumption.
  - intros flat k' Hk'. apply add_non_list_fields_get_other. exact Hk'.
  - intros row Hrow.
    destruct (json_records_choice d Hne)
      as (before & root_key & largest & after & _ & _ & _ & Hrec).
    rewrite Hrec in Hrow. apply in_map_iff in Hrow.
    destruct Hrow as (item & <- & _).
    exists item. split; [reflexivity|].
    apply add_non_list_fields_get; assumption.
Qed.

Lemma root_fields_overwrite_flattened_element_witness :
  NoDup (keys Samples.colliding)
  /\ In (Some "unknown_a", VInt 9) Samples.colliding
  /\ list_candidates Samples.colliding <> []
  /\ dict_get (flatten_json (VDict [(Some "a", VInt 1)]) default_prefix) (Some "unknown_a")
     = Some (VInt 1)
  /\ dict_get (add_non_list_fields Samples.colliding
                 (flatten_json (VDict [(Some "a", VInt 1)]) default_prefix))
              (Some "unknown_a")
     = Some (VInt 9).
Proof.
  assert (Hnd : NoDup (keys Samples.colliding)).
  { simpl. repeat constructor; simpl; intuition discriminate. }
  assert (Hin : In (Some "unknown_a", VInt 9) Samples.colliding)
    by (left; reflexivity).
  assert (Hne : list_candidates Samples.colliding <> []) by discriminate.
  split; [exact Hnd|]. split; [exact Hin|]. split; [exact Hne|].
  split; [reflexivity|].
  apply (proj1 (root_fields_overwrite_flattened_element
                  Samples.colliding (Some "unknown_a") (VInt 9)
                  Hnd Hin eq_refl Hne)).
Defined.

(* ================================================================== *)
(** ** Columns of a frame *)
(* ================================================================== *)

Lemma index_of_bound (cols : list pykey) (col : pykey) (j : nat) :
  index_of cols col = Some j -> j < List.length cols.
Proof.
  revert j. induction cols as [|c cols IH]; intros j; simpl; [discriminate|].
  destruct (key_eqb c col).
  - intros [= <-]. lia.
  - destruct (index_of cols col) as [i|]; simpl; [|discriminate].
    intros [= <-]. specialize (IH i eq_refl). lia.
Qed.

Lemma index_of_in (cols : list pykey) (col : pykey) :
  In col cols -> exists j, index_of cols col = Some j.
Proof.
  induction cols as [|c cols IH]; simpl; [intros []|].
  intros Hin. destruct (key_eqb_spec c col) as [->|Hne].
  - eauto.
  - destruct Hin as [Heq | Hin]; [congruence|].
    destruct (IH Hin) as (j & ->). simpl. eauto.
Qed.

Lemma index_of_inj (cols : list pykey) (a b : pykey) (j : nat) :
  index_of cols a = Some j -> index_of cols b = Some j -> a = b.
Proof.
  revert j. induction cols as [|c cols IH]; intros j; simpl; [discriminate|].
  destruct (key_eqb_spec c a) as [Ha|Ha], (key_eqb_spec c b) as [Hb|Hb].
  - congruence.
  - intros [= <-]. destruct (index_of cols b); discriminate.
  - destruct (index_of cols a); simpl; [|discriminate]. intros [= <-]. discriminate.
  - destruct (index_of cols a) as [i|] eqn:Hi; simpl; [|discriminate].
    destruct (index_of cols b) as [i'|] eqn:Hi'; simpl; [|intros _; discriminate].
    intros [= <-] [= Heq]. subst i'. apply (IH i); reflexivity.
Qed.

Lemma length_set_nth {A : Type} (j : nat) (x : A) (l : list A) :
  List.length (set_nth j x l) = List.length l.
Proof.
  revert j. induction l as [|y l IH]; intros [|j]; simpl; auto.
Qed.

Lemma nth_set_nth_same {A : Type} (j : nat) (x d : A) (l : list A) :
  j < List.length l -> nth j (set_nth j x l) d = x.
Proof.
  revert j. induction l as [|y l IH]; intros [|j]; simpl; intros H; try lia.
  - reflexivity.
  - apply IH. lia.
Qed.

Lemma nth_set_nth_other {A : Type} (i j : nat) (x d : A) (l : list A) :
  i <> j -> nth i (set_nth j x l) d = nth i l d.
Proof.
  revert i j. induction l as [|y l IH]; intros [|i] [|j]; simpl; intros H;
    try reflexivity; try lia.
  apply IH. lia.
Qed.

Section SetColumn.
Variable df : DataFrame.
Variable col : pykey.
Variable series : list value.
Hypothesis Hwf : well_formed df.
Hypothesis Hcol : In col (columns df).
Hypothesis Hlen : List.length series = List.length (rows df).

Lemma set_column_columns : columns (set_column df col series) = columns df.
Proof.
  unfold set_column. destruct (index_of_in _ _ Hcol) as (j & ->). reflexivity.
Qed.

Lemma set_column_rows_length :
  List.length (rows (set_column df col series)) = List.length (rows df).
Proof.
  unfold set_column. destruct (index_of_in _ _ Hcol) as (j & ->). simpl.
  rewrite length_map, length_combine. lia.
Qed.

Lemma set_column_well_formed : well_formed (set_column df col series).
Proof.
  destruct Hwf as [Hnd Hrows]. split.
  - rewrite set_column_columns. exact Hnd.
  - rewrite set_column_columns. unfold set_column.
    destruct (index_of_in _ _ Hcol) as (j & ->). simpl.
    rewrite Forall_map. rewrite Forall_forall in *.
    intros [r x] Hin. simpl. rewrite length_set_nth.
    apply Hrows. eapply in_combine_l. exact Hin.
Qed.

Lemma get_set_column_same : get_column (set_column df col series) col = series.
Proof.
  destruct Hwf as [_ Hrows]. unfold get_column, set_column.
  destruct (index_of_in _ _ Hcol) as (j & Hj). rewrite Hj. simpl. rewrite Hj.
  apply index_of_bound in Hj. rewrite map_map. simpl.
  revert Hrows Hlen. generalize (rows df) as rs. clear - Hj.
  induction series as [|x xs IH]; intros [|r rs] Hrows Hlen; simpl in *;
    try reflexivity; try discriminate.
  inversion Hrows; subst. f_equal.
  - apply nth_set_nth_same. lia.
  - apply IH; [assumption | lia].
Qed.

Lemma get_set_column_other (col' : pykey) :
  col' <> col -> get_column (set_column df col series) col' = get_column df col'.
Proof.
  intros Hne. unfold get_column. rewrite set_column_columns.
  destruct (index_of (columns df) col') as [i|] eqn:Hi; [|reflexivity].
  unfold set_column. destruct (index_of_in _ _ Hcol) as (j & Hj). rewrite Hj. simpl.
  assert (Hij : i <> j).
  { intros ->. apply Hne. eapply index_of_inj; eassumption. }
  rewrite map_map. simpl.
  revert Hlen. generalize (rows df) as rs. clear - Hij.
  induction series as [|x xs IH]; intros [|r rs] Hlen; simpl in *;
    try reflexivity; try discriminate.
  f_equal.
  - apply nth_set_nth_other. exact Hij.
  - apply IH. lia.
Qed.
End SetColumn.

Lemma length_get_column (df : DataFrame) (col : pykey) :
  In col (columns df) -> List.length (get_column df col) = List.length (rows df).
Proof.
  intros Hcol. unfold get_column. destruct (index_of_in _ _ Hcol) as (j & ->).
  apply length_map.
Qed.

(* ================================================================== *)
(** ** Properties of the list normalisation *)
(* ================================================================== *)

Lemma normalize_column_spec (df : DataFrame) (col : pykey) :
  well_formed df ->
  In col (columns df) ->
  well_formed (normalize_column df col)
  /\ columns (normalize_column df col) = columns df
  /\ List.length (rows (normalize_column df col)) = List.length (rows df)
  /\ get_column (normalize_column df col) col
     = (if existsb is_list (get_column df col)
        then padded_series (get_column df col) else get_column df col)
  /\ (forall col', col' <> col ->
         get_column (normalize_column df col) col' = get_column df col').
Proof.
  intros Hwf Hcol. unfold normalize_column.
  destruct (existsb is_list (get_column df col)); [|auto].
  assert (Hlen : List.length (padded_series (get_column df col))
                 = List.length (rows df)).
  { unfold padded_series. rewrite length_map. apply length_get_column. exact Hcol. }
  refine (conj _ (conj _ (conj _ (conj _ _)))).
  - apply set_column_well_formed; assumption.
  - apply set_column_columns. exact Hcol.
  - apply set_column_rows_length; assumption.
  - apply get_set_column_same; assumption.
  - intros col' Hne. apply get_set_column_other; assumption.
Qed.

Lemma normalize_fold (cs : list pykey) :
  forall df,
    well_formed df -> NoDup cs -> incl cs (columns df) ->
    well_formed (fold_left normalize_column cs df)
    /\ columns (fold_left normalize_column cs df) = columns df
    /\ List.length (rows (fold_left normalize_column cs df)) = List.length (rows df)
    /\ (forall col, In col cs ->
           get_column (fold_left normalize_column cs df) col
           = (if existsb is_list (get_column df col)
              then padded_series (get_column df col) else get_column df col))
    /\ (forall col, ~ In col cs ->
           get_column (fold_left normalize_column cs df) col = get_column df col).
Proof.
  induction cs as [|c cs IH]; intros df Hwf Hnd Hincl; simpl.
  - refine (conj Hwf (conj eq_refl (conj eq_refl (conj _ _)))).
    + intros col [].
    + reflexivity.
  - inversion Hnd as [|? ? Hc Hnd']; subst.
    assert (Hcin : In c (columns df)) by (apply Hincl; left; reflexivity).
    destruct (normalize_column_spec df c Hwf Hcin) as (Hwf1 & Hcols1 & Hrows1 & Hsame & Hother).
    destruct (IH (normalize_column df c) Hwf1 Hnd')
      as (Hwf' & Hcols' & Hrows' & Hin' & Hout').
    { rewrite Hcols1. intros x Hx. apply Hincl. right. exact Hx. }
    refine (conj Hwf' (conj _ (conj _ (conj _ _)))).
    + congruence.
    + congruence.
    + intros col [<- | Hin].
      * rewrite Hout' by exact Hc. exact Hsame.
      * rewrite Hin' by exact Hin.
        rewrite Hother by (intros ->; contradiction). reflexivity.
    + intros col Hnin.
      rewrite Hout' by (intros H; apply Hnin; right; exact H).
      apply Hother. intros ->. apply Hnin. left. reflexivity.
Qed.

Lemma get_column_missing (df : DataFrame) (col : pykey) :
  ~ In col (columns df) -> get_column df col = [].
Proof.
  intros Hnin. unfold get_column.
  destruct (index_of (columns df) col) as [j|] eqn:Hj; [|reflexivity].
  exfalso. apply Hnin. clear Hnin. revert j Hj.
  induction (columns df) as [|c cols IH]; intros j; simpl; [discriminate|].
  destruct (key_eqb_spec c col) as [->|Hne]; [auto|].
  destruct (index_of cols col) as [i|]; simpl; [|discriminate].
  intros _. right. apply (IH i). reflexivity.
Qed.

Lemma cell_len_le_series_max (x : value) (series : list value) :
  In x series -> cell_len x <= series_max (map cell_len series).
Proof.
  induction series as [|y series IH]; simpl; [intros []|].
  unfold series_max in *. cbn [map fold_right].
  intros [-> | Hin]; [lia|]. specialize (IH Hin). lia.
Qed.

Lemma pad_cell_length (m : nat) (x : value) :
  cell_len x <= m -> list_of_length m (pad_cell m x).
Proof.
  intros Hle. unfold list_of_length.
  destruct x; simpl in *;
    try (eexists; split; [reflexivity|]; simpl; rewrite repeat_length; lia).
  eexists; split; [reflexivity|]. rewrite length_app, repeat_length. lia.
Qed.

Lemma series_max_cell_len (series : list value) :
  series_max (map cell_len series)
  = Nat.max (max_list_len series) (if forallb is_list series then 0 else 1).
Proof.
  unfold max_list_len, series_max.
  induction series as [|x series IH]; [reflexivity|].
  cbn [map fold_right]. rewrite IH.
  destruct x; cbn [map filter fold_right forallb is_list cell_len list_len andb];
    destruct (forallb is_list series); lia.
Qed.

Lemma add_label_NoDup (cols : list pykey) (k : pykey) :
  NoDup cols -> NoDup (add_label cols k).
Proof.
  intros Hnd. unfold add_label.
  destruct (existsb (key_eqb k) cols) eqn:Hex; [exact Hnd|].
  apply NoDup_app; [exact Hnd | repeat constructor; intros [] | ].
  intros x Hx [Heq | []]. subst x.
  assert (Htrue : existsb (key_eqb k) cols = true).
  { apply existsb_exists. exists k. split; [exact Hx | apply key_eqb_refl]. }
  congruence.
Qed.

(** The frames built from records are well formed. *)
Lemma DataFrame_of_records_well_formed (records : list dict) :
  well_formed (DataFrame_of_records records).
Proof.
  split; simpl.
  - unfold union_keys. apply fold_left_invariant; [|constructor].
    intros cols r _ Hcols. apply fold_left_invariant; [|exact Hcols].
    intros cols' k _. apply add_label_NoDup.
  - rewrite Forall_map. rewrite Forall_forall. intros r _. apply length_map.
Qed.

(** C9.  On a well-formed frame the list normalisation keeps the column
    labels, the number of rows and the number of cells of every row, and a
    column that holds no list keeps all its cells. *)
Theorem normalize_list_columns_frame (df : DataFrame) :
  well_formed df ->
  columns (normalize_list_columns df) = columns df
  /\ List.length (rows (normalize_list_columns df)) = List.length (rows df)
  /\ well_formed (normalize_list_columns df)
  /\ (forall col,
         existsb is_list (get_column df col) = false ->
         get_column (normalize_list_columns df) col = get_column df col).
Proof.
  intros Hwf. unfold normalize_list_columns.
  destruct (normalize_fold (columns df) df Hwf (proj1 Hwf) (incl_refl _))
    as (Hwf' & Hcols & Hrows & Hin & Hout).
  refine (conj Hcols (conj Hrows (conj Hwf' _))).
  intros col Hno.
  destruct (in_dec (fun a b => reflect_dec _ _ (key_eqb_spec a b)) col (columns df))
    as [Hc | Hc].
  - rewrite Hin by exact Hc. rewrite Hno. reflexivity.
  - apply Hout. exact Hc.
Qed.

Lemma ragged_well_formed : well_formed Samples.ragged.
Proof.
  split.
  - simpl. repeat constructor; simpl; intuition discriminate.
  - repeat constructor.
Qed.

Lemma normalize_list_columns_frame_witness :
  well_formed Samples.ragged
  /\ existsb is_list (get_column Samples.ragged (Some "b")) = false
  /\ columns (normalize_list_columns Samples.ragged) = columns Samples.ragged
  /\ List.length (rows (normalize_list_columns Samples.ragged)) = 3
  /\ get_column (normalize_list_columns Samples.ragged) (Some "b")
     = [VInt 1; VInt 2; VStr "z"].
Proof.
  split; [exact ragged_well_formed|]. split; [reflexivity|].
  destruct (normalize_list_columns_frame Samples.ragged ragged_well_formed)
    as (Hcols & Hrows & _ & Hsame).
  split; [exact Hcols|]. split; [exact Hrows|].
  exact (Hsame (Some "b") eq_refl).
Defined.

(** C3, the part the code does not do: in a column whose only list cell is
    empty, the cells that are no lists raise [max_len] to 1, so the cells do
    not end at the greatest length among the list cells, which is 0. *)
Lemma non_list_cells_raise_max_len :
  existsb is_list (get_column Samples.ragged (Some "a")) = true
  /\ max_list_len (get_column Samples.ragged (Some "a")) = 0
  /\ ~ Forall (list_of_length (max_list_len (get_column Samples.ragged (Some "a"))))
              (get_column (normalize_list_columns Samples.ragged) (Some "a")).
Proof.
  split; [reflexivity|]. split; [reflexivity|].
  vm_compute. intros H.
  inversion H as [|x xs (l & Hl & Hlen) _]; subst.
  injection Hl as <-. discriminate.
Qed.

(** C3, as the code has it.  In a column that holds at least one list,
    [max_len] is the greatest of the cell lengths, a list counting with its
    length and any other cell with 1; it is the greatest length among the
    list cells unless some cell is no list and that length is 0, when it is
    1.  Afterwards the column holds each old cell padded: a list cell with
    [None] appended up to [max_len], another cell wrapped in a one-element
    list and padded likewise; every cell is a list of exactly [max_len]
    elements. *)
Theorem normalize_list_columns_pads (df : DataFrame) (col : pykey) :
  well_formed df ->
  In col (columns df) ->
  existsb is_list (get_column df col) = true ->
  let series := get_column df col in
  let max_len := series_max (map cell_len series) in
  max_len = Nat.max (max_list_len series) (if forallb is_list series then 0 else 1)
  /\ get_column (normalize_list_columns df) col = map (pad_cell max_len) series
  /\ Forall (list_of_length max_len) (get_column (normalize_list_columns df) col).
Proof.
  intros Hwf Hcol Hany series max_len.
  assert (Hget : get_column (normalize_list_columns df) col = map (pad_cell max_len) series).
  { unfold normalize_list_columns.
    destruct (normalize_fold (columns df) df Hwf (proj1 Hwf) (incl_refl _))
      as (_ & _ & _ & Hin & _).
    rewrite Hin by exact Hcol. rewrite Hany. reflexivity. }
  refine (conj _ (conj Hget _)).
  - apply series_max_cell_len.
  - rewrite Hget. rewrite Forall_map. rewrite Forall_forall.
    intros x Hx. apply pad_cell_length. apply cell_len_le_series_max. exact Hx.
Qed.

Lemma normalize_list_columns_pads_witness :
  well_formed Samples.ragged
  /\ In (Some "a") (columns Samples.ragged)
  /\ existsb is_list (get_column Samples.ragged (Some "a")) = true
  /\ get_column (normalize_list_columns Samples.ragged) (Some "a")
     = [VList [VNone]; VList [VInt 5]; VList [NaN]]
  /\ Forall (list_of_length 1)
            (get_column (normalize_list_columns Samples.ragged) (Some "a")).
Proof.
  assert (Hin : In (Some "a") (columns Samples.ragged)) by (left; reflexivity).
  split; [exact ragged_well_formed|]. split; [exact Hin|]. split; [reflexivity|].
  destruct (normalize_list_columns_pads Samples.ragged (Some "a")
              ragged_well_formed Hin eq_refl) as (_ & Hget & Hall).
  split; [exact Hget | exact Hall].
Defined.

(* ================================================================== *)
(** ** Properties of the driver *)
(* ================================================================== *)

(** C5.  Whenever the extraction fails -- the path does not exist, no
    reader is registered for the detected type, the JSON document cannot be
    loaded, a reader raises, or the body of the [try] raises for any other
    reason -- [extract_data] returns the empty frame, with no column and no
    row; being a function into frames, it lets no exception out. *)
Theorem extract_data_failure_gives_empty_frame (env : Env) (file_path : string) :
  path_exists env file_path = false
  \/ (detect_file_type file_path <> "json"
      /\ READERS env (detect_file_type file_path) = None)
  \/ (detect_file_type file_path = "json"
      /\ exists e, json_load env file_path = Raise e)
  \/ (exists reader e,
         detect_file_type file_path <> "json"
         /\ READERS env (detect_file_type file_path) = Some reader
         /\ reader file_path = Raise e)
  \/ (exists e, extract_data_body env file_path = Raise e) ->
  extract_data env file_path = empty_frame
  /\ columns (extract_data env file_path) = []
  /\ rows (extract_data env file_path) = [].
Proof.
  intros H.
  assert (Hempty : extract_data env file_path = empty_frame).
  { unfold extract_data, extract_data_body, extract_json_safely.
    destruct (path_exists env file_path) eqn:Hex; simpl; [|reflexivity].
    destruct H as [H | [(Hty & Hrd) | [(Hty & e & Hload) | [(reader & e & Hty & Hrd & Hraise) | (e & Hbody)]]]].
    - discriminate.
    - apply String.eqb_neq in Hty. rewrite Hty, Hrd. reflexivity.
    - rewrite Hty. simpl. rewrite Hload. reflexivity.
    - apply String.eqb_neq in Hty. rewrite Hty, Hrd. simpl. rewrite Hraise. reflexivity.
    - unfold extract_data_body, extract_json_safely in Hbody.
      rewrite Hex in Hbody. simpl in Hbody. rewrite Hbody. reflexivity. }
  rewrite Hempty. auto.
Qed.

Lemma extract_data_failure_gives_empty_frame_witness :
  (path_exists Samples.orders_env "data/missing.json" = false
   /\ extract_data Samples.orders_env "data/missing.json" = empty_frame)
  /\ (detect_file_type "table.xyz" <> "json"
      /\ READERS Samples.bare_env (detect_file_type "table.xyz") = None
      /\ extract_data Samples.bare_env "table.xyz" = empty_frame)
  /\ (detect_file_type "broken.JSON" = "json"
      /\ json_load Samples.bare_env "broken.JSON" = Raise (OtherException "JSONDecodeError")
      /\ extract_data Samples.bare_env "broken.JSON" = empty_frame).
Proof.
  assert (Hxyz : detect_file_type "table.xyz" <> "json") by discriminate.
  split; [|split].
  - split; [reflexivity|].
    apply (extract_data_failure_gives_empty_frame Samples.orders_env "data/missing.json").
    left. reflexivity.
  - split; [exact Hxyz|]. split; [reflexivity|].
    apply (extract_data_failure_gives_empty_frame Samples.bare_env "table.xyz").
    right. left. split; [exact Hxyz | reflexivity].
  - split; [reflexivity|]. split; [reflexivity|].
    apply (extract_data_failure_gives_empty_frame Samples.bare_env "broken.JSON").
    right. right. left. split; [reflexivity|]. eexists. reflexivity.
Defined.

(** C1, the part the code does not do: for the orders document the rows
    returned by the pipeline do not map [id], [items_sku], [items_tags_0]
    and [items_tags_1] as stated. *)
Lemma orders_rows_not_under_items_keys :
  ~ (exists row1 row2,
        to_dict_records (extract_data Samples.orders_env Samples.orders_path)
        = [row1; row2]
        /\ dict_get row1 (Some "id") = Some (VInt 1)
        /\ dict_get row1 (Some "items_sku") = Some (VStr "A")
        /\ dict_get row1 (Some "items_tags_0") = Some (VStr "x")
        /\ dict_get row1 (Some "items_tags_1") = Some (VStr "y")
        /\ dict_get row2 (Some "id") = Some (VInt 1)
        /\ dict_get row2 (Some "items_sku") = Some (VStr "B")
        /\ dict_get row2 (Some "items_tags_0") = Some (VStr "z")
        /\ dict_get row2 (Some "items_tags_1") = Some (VStr "")).
Proof.
  intros (row1 & row2 & Hrows & _ & Hsku & _).
  vm_compute in Hrows. injection Hrows as <- <-.
  vm_compute in Hsku. discriminate.
Qed.

(** C1, as the code has it.  For the orders document, read from an existing
    path of type json, the pipeline returns exactly two rows over the columns
    [unknown_sku], [unknown_tags_0], [unknown_tags_1] and [id]: row 1 maps
    them to "A", "x", "y" and 1, row 2 to "B", "z", the missing-value marker
    NaN and 1. *)
Theorem extract_data_orders (env : Env) (file_path : string) :
  path_exists env file_path = true ->
  detect_file_type file_path = "json" ->
  json_load env file_path = Ok Samples.orders ->
  extract_data env file_path = Samples.orders_frame
  /\ to_dict_records (extract_data env file_path)
     = [[(Some "unknown_sku", VStr "A"); (Some "unknown_tags_0", VStr "x");
         (Some "unknown_tags_1", VStr "y"); (Some "id", VInt 1)];
        [(Some "unknown_sku", VStr "B"); (Some "unknown_tags_0", VStr "z");
         (Some "unknown_tags_1", NaN); (Some "id", VInt 1)]].
Proof.
  intros Hex Hty Hload.
  assert (Hframe : extract_data env file_path = Samples.orders_frame).
  { unfold extract_data, extract_data_body, extract_json_safely.
    rewrite Hex, Hty, Hload. vm_compute. reflexivity. }
  rewrite Hframe. split; reflexivity.
Qed.

Lemma extract_data_orders_witness :
  path_exists Samples.orders_env Samples.orders_path = true
  /\ detect_file_type Samples.orders_path = "json"
  /\ json_load Samples.orders_env Samples.orders_path = Ok Samples.orders
  /\ extract_data Samples.orders_env Samples.orders_path = Samples.orders_frame.
Proof.
  split; [reflexivity|]. split; [reflexivity|]. split; [reflexivity|].
  apply (extract_data_orders Samples.orders_env Samples.orders_path);
    reflexivity.
Defined.

(* ================================================================== *)
(** ** Further properties: frames on the JSON path *)
(* ================================================================== *)

Lemma dict_get_in_values (d : dict) (k : pykey) (v : value) :
  dict_get d k = Some v -> In v (values d).
Proof.
  induction d as [|[k0 v0] d IH]; simpl; [discriminate|].
  destruct (key_eqb k0 k).
  - intros [= ->]. left. reflexivity.
  - intros H. right. apply IH. exact H.
Qed.

Lemma dict_get_in_keys (d : dict) (k : pykey) (v : value) :
  dict_get d k = Some v -> In k (keys d).
Proof.
  induction d as [|[k0 v0] d IH]; simpl; [discriminate|].
  destruct (key_eqb_spec k0 k) as [->|Hne].
  - intros _. left. reflexivity.
  - intros H. right. apply IH. exact H.
Qed.

(** A cell of a frame built from records is a value of its record, or the
    missing-value marker. *)
Lemma record_cell_cases (r : dict) (col : pykey) :
  In (record_cell r col) (values r) \/ record_cell r col = NaN.
Proof.
  unfold record_cell. destruct (dict_get r col) as [v|] eqn:Hget.
  - left. eapply dict_get_in_values. exact Hget.
  - right. reflexivity.
Qed.

Lemma frame_cells_of_records (P : value -> Prop) (records : list dict) :
  P NaN ->
  Forall (fun r => Forall P (values r)) records ->
  Forall (Forall P) (rows (DataFrame_of_records records)).
Proof.
  intros Hnan Hrec. simpl. rewrite Forall_map.
  revert Hrec. apply Forall_impl. intros r Hr.
  rewrite Forall_map. rewrite Forall_forall. intros col _.
  destruct (record_cell_cases r col) as [Hin | ->]; [|exact Hnan].
  rewrite Forall_forall in Hr. apply Hr. exact Hin.
Qed.

Lemma flat_entries_not_lists (d : dict) :
  Forall flat_entry d -> Forall (fun x => is_list x = false) (values d).
Proof.
  intros H. unfold values. rewrite Forall_map. revert H.
  apply Forall_impl. intros [k x] (_ & Hs & _). simpl in *.
  destruct x; try reflexivity; discriminate.
Qed.

Lemma add_non_list_fields_not_lists (d flat : dict) :
  Forall (fun x => is_list x = false) (values flat) ->
  Forall (fun x => is_list x = false) (values (add_non_list_fields d flat)).
Proof.
  unfold add_non_list_fields.
  apply (fold_left_invariant
           (fun o : dict => Forall (fun x => is_list x = false) (values o))).
  intros a [k v] _ Ha. simpl.
  destruct (is_list v) eqn:Hv; [exact Ha|].
  unfold values in *. rewrite Forall_map in *.
  apply Forall_dict_set; [exact Ha | exact Hv].
Qed.

Lemma json_records_not_lists (data : value) :
  Forall (fun r => Forall (fun x => is_list x = false) (values r)) (json_records data).
Proof.
  assert (Hflat : forall v, Forall (fun x => is_list x = false)
                                   (values (flatten_json v default_prefix))).
  { intros v. apply flat_entries_not_lists. unfold flatten_json.
    apply recurse_flat_entries. constructor. }
  destruct data as [ | b | z | f | s | l | d]; simpl;
    try (repeat constructor).
  - rewrite Forall_map. rewrite Forall_forall. intros item _. apply Hflat.
  - destruct (list_candidates d) as [|first rest] eqn:Hc.
    + constructor; [apply (Hflat (VDict d)) | constructor].
    + destruct (max_by (fun x => list_len (snd x)) first rest) as [root_key chosen].
      rewrite Forall_map. rewrite Forall_forall. intros item _.
      apply add_non_list_fields_not_lists. apply Hflat.
Qed.

Lemma get_column_not_lists (df : DataFrame) (col : pykey) :
  Forall (Forall (fun x => is_list x = false)) (rows df) ->
  existsb is_list (get_column df col) = false.
Proof.
  intros Hrows. unfold get_column.
  destruct (index_of (columns df) col) as [j|]; [|reflexivity].
  induction Hrows as [|r rs Hr _ IH]; simpl; [reflexivity|].
  rewrite IH, orb_false_r.
  destruct (nth_in_or_default j r NaN) as [Hin | ->]; [|reflexivity].
  rewrite Forall_forall in Hr. apply Hr. exact Hin.
Qed.

Lemma normalize_list_columns_no_lists (df : DataFrame) :
  Forall (Forall (fun x => is_list x = false)) (rows df) ->
  normalize_list_columns df = df.
Proof.
  intros Hrows. unfold normalize_list_columns.
  generalize (columns df) as cs.
  induction cs as [|c cs IH]; simpl; [reflexivity|].
  unfold normalize_column at 2.
  rewrite get_column_not_lists by exact Hrows. exact IH.
Qed.

(** X4.  Whatever the parsed document, no record that [extract_json_safely]
    hands to pandas holds a list under any key, so on the JSON path the list
    normalisation returns the frame as it received it. *)
Theorem json_frame_untouched_by_list_normalisation (data : value) :
  Forall (fun r => Forall (fun x => is_list x = false) (values r)) (json_records data)
  /\ normalize_list_columns (DataFrame_of_records (json_records data))
     = DataFrame_of_records (json_records data).
Proof.
  split; [apply json_records_not_lists|].
  apply normalize_list_columns_no_lists.
  apply frame_cells_of_records; [reflexivity | apply json_records_not_lists].
Qed.

Lemma flatten_frame_without_rows (cols : list pykey) :
  flatten_frame (mkDataFrame cols []) = empty_frame.
Proof.
  unfold flatten_frame.
  rewrite normalize_list_columns_no_lists by constructor. reflexivity.
Qed.

(** X3.  A frame without rows loses its columns: when the reader registered
    for the file type returns a frame that has column labels but no row,
    [extract_data] returns the empty frame, as it does on failure. *)
Theorem extract_data_header_only_frame
  (env : Env) (file_path : string) (reader : string -> result DataFrame)
  (cols : list pykey) :
  path_exists env file_path = true ->
  detect_file_type file_path <> "json" ->
  READERS env (detect_file_type file_path) = Some reader ->
  reader file_path = Ok (mkDataFrame cols []) ->
  extract_data env file_path = empty_frame.
Proof.
  intros Hex Hty Hrd Hok. unfold extract_data, extract_data_body.
  rewrite Hex. simpl. apply String.eqb_neq in Hty. rewrite Hty, Hrd. simpl.
  rewrite Hok. simpl. apply flatten_frame_without_rows.
Qed.

Lemma extract_data_header_only_frame_witness :
  extract_data
    (mkEnv (fun _ => true) (fun _ => Raise (OtherException "JSONDecodeError"))
           (fun ty => if String.eqb ty "csv"
                      then Some (fun _ => Ok (mkDataFrame [Some "a"; Some "b"] []))
                      else None))
    "data/empty.CSV"
  = empty_frame.
Proof.
  apply (extract_data_header_only_frame _ "data/empty.CSV"
           (fun _ => Ok (mkDataFrame [Some "a"; Some "b"] []))
           [Some "a"; Some "b"]).
  - reflexivity.
  - discriminate.
  - reflexivity.
  - reflexivity.
Defined.

(* ================================================================== *)
(** ** Further properties: the frame returned by [extract_data] *)
(* ================================================================== *)

Lemma union_keys_in (records : list dict) (k : pykey) :
  In k (union_keys records) -> exists r, In r records /\ In k (keys r).
Proof.
  unfold union_keys.
  apply (fold_left_invariant
           (fun cols : list pykey =>
              In k cols -> exists r, In r records /\ In k (keys r)));
    [|intros []].
  intros cols r Hr Hcols.
  apply (fold_left_invariant
           (fun cols : list pykey =>
              In k cols -> exists r, In r records /\ In k (keys r)));
    [|exact Hcols].
  intros cols' k' Hk' Hcols'. unfold add_label.
  destruct (existsb (key_eqb k') cols'); [exact Hcols'|].
  rewrite in_app_iff. intros [Hin | [<- | []]]; [auto|].
  exists r. split; assumption.
Qed.


(** The frame built from flat records. *)
Lemma flat_records_frame (records : list dict) :
  Forall (Forall flat_entry) records ->
  well_formed (DataFrame_of_records records)
  /\ Forall nonempty_key (columns (DataFrame_of_records records))
  /\ Forall (Forall (fun x => is_scalar x = true /\ x <> VNone))
            (rows (DataFrame_of_records records)).
Proof.
  intros Hrec. split; [apply DataFrame_of_records_well_formed|]. split.
  - rewrite Forall_forall. intros k Hk. simpl in Hk.
    destruct (union_keys_in _ _ Hk) as (r & Hr & Hkr).
    rewrite Forall_forall in Hrec. specialize (Hrec r Hr).
    apply flat_entries_nonempty_keys in Hrec.
    rewrite Forall_forall in Hrec. apply Hrec. exact Hkr.
  - apply frame_cells_of_records.
    + split; [reflexivity | discriminate].
    + revert Hrec. apply Forall_impl. intros r Hr.
      unfold values. rewrite Forall_map. revert Hr.
      apply Forall_impl. intros kv (_ & Hs & Hne). auto.
Qed.

Lemma flatten_frame_records_flat (df : DataFrame) :
  Forall (Forall flat_entry)
         (map deep_flatten_row (to_dict_records (normalize_list_columns df))).
Proof.
  rewrite Forall_map. rewrite Forall_forall. intros r _.
  apply deep_flatten_row_flat_entries.
Qed.

(** X1.  Whatever the world and the path, the frame [extract_data] returns
    has distinct column labels, one cell per label in every row, and cells
    that are scalars other than [None]: no list, no dictionary and no [None]
    survives.  For a path of type json, whose labels all come from the keys
    of the document, every label is moreover a non-empty string. *)
Theorem extract_data_returns_flat_frame (env : Env) (file_path : string) :
  well_formed (extract_data env file_path)
  /\ Forall (Forall (fun x => is_scalar x = true /\ x <> VNone))
            (rows (extract_data env file_path))
  /\ (detect_file_type file_path = "json" ->
      Forall nonempty_key (columns (extract_data env file_path))).
Proof.
  assert (Hall : well_formed (extract_data env file_path)
                 /\ Forall nonempty_key (columns (extract_data env file_path))
                 /\ Forall (Forall (fun x => is_scalar x = true /\ x <> VNone))
                           (rows (extract_data env file_path))).
  { assert (Hempty : well_formed empty_frame
                     /\ Forall nonempty_key (columns empty_frame)
                     /\ Forall (Forall (fun x => is_scalar x = true /\ x <> VNone))
                               (rows empty_frame)).
    { split; [split; constructor | split; constructor]. }
    assert (Hflat : forall df,
               well_formed (flatten_frame df)
               /\ Forall nonempty_key (columns (flatten_frame df))
               /\ Forall (Forall (fun x => is_scalar x = true /\ x <> VNone))
                         (rows (flatten_frame df))).
    { intros df. apply flat_records_frame, flatten_frame_records_flat. }
    unfold extract_data, extract_data_body, extract_json_safely.
    destruct (negb (path_exists env file_path)); [exact Hempty|].
    destruct (String.eqb (detect_file_type file_path) "json").
    - destruct (json_load env file_path) as [data|e]; simpl; [apply Hflat | exact Hempty].
    - destruct (READERS env (detect_file_type file_path)) as [reader|]; [|exact Hempty].
      destruct (reader file_path) as [df|e]; simpl; [apply Hflat | exact Hempty]. }
  destruct Hall as (Hwf & Hlabels & Hcells).
  refine (conj Hwf (conj Hcells _)). intros _. exact Hlabels.
Qed.

Lemma extract_data_returns_flat_frame_witness :
  detect_file_type Samples.orders_path = "json"
  /\ Forall nonempty_key (columns (extract_data Samples.orders_env Samples.orders_path))
  /\ Forall (Forall (fun x => is_scalar x = true /\ x <> VNone))
            (rows (extract_data Samples.orders_env Samples.orders_path)).
Proof.
  destruct (extract_data_returns_flat_frame Samples.orders_env Samples.orders_path)
    as (_ & Hcells & Hlabels).
  split; [reflexivity|]. split; [apply Hlabels; reflexivity | exact Hcells].
Defined.



(* ================================================================== *)
(** ** Further properties: frames that the deep flattening leaves alone *)
(* ================================================================== *)












(** X8.  A root map whose list fields are all empty gives no record at all:
    [extract_data] returns the empty frame, as it does on failure, whatever
    other fields the root has. *)
Theorem extract_data_empty_list_fields (env : Env) (file_path : string) (d : dict) :
  path_exists env file_path = true ->
  detect_file_type file_path = "json" ->
  json_load env file_path = Ok (VDict d) ->
  list_candidates d <> [] ->
  Forall (fun kv => list_len (snd kv) = 0) (list_candidates d) ->
  json_records (VDict d) = []
  /\ extract_data env file_path = empty_frame.
Proof.
  intros Hex Hty Hload Hne Hzero.
  assert (Hrec : json_records (VDict d) = []).
  { destruct (json_records_choice d Hne)
      as (before & root_key & largest & after & Hc & _ & _ & Hrec).
    rewrite Hc in Hzero. apply Forall_elt in Hzero. simpl in Hzero.
    destruct largest; [|discriminate]. rewrite Hrec. reflexivity. }
  split; [exact Hrec|].
  unfold extract_data, extract_data_body, extract_json_safely.
  rewrite Hex, Hty, Hload. cbv beta iota delta [bind negb String.eqb].
  change (match Ok (flatten_frame (DataFrame_of_records (json_records (VDict d)))) with
          | Ok df => df
          | Raise _ => empty_frame
          end = empty_frame).
  rewrite Hrec. reflexivity.
Qed.

Lemma extract_data_empty_list_fields_witness :
  extract_data
    (mkEnv (fun _ => true)
           (fun _ => Ok (VDict [(Some "id", VInt 1); (Some "items", VList [])]))
           (fun _ => None))
    "order.json"
  = empty_frame.
Proof.
  refine (proj2 (extract_data_empty_list_fields
                   (mkEnv (fun _ => true)
                          (fun _ => Ok (VDict [(Some "id", VInt 1);
                                               (Some "items", VList [])]))
                          (fun _ => None))
                   "order.json" _ eq_refl eq_refl eq_refl _ _)).
  - discriminate.
  - repeat constructor.
Defined.

(** X10.  A JSON document that is a bare scalar gives one row with the
    single column [value]; the scalar is kept, except that [None] becomes
    the empty string. *)
Theorem extract_data_scalar_root (env : Env) (file_path : string) (data : value) :
  path_exists env file_path = true ->
  detect_file_type file_path = "json" ->
  json_load env file_path = Ok data ->
  is_scalar data = true ->
  extract_data env file_path = mkDataFrame [Some "value"] [[none_to_empty data]].
Proof.
  intros Hex Hty Hload Hs.
  unfold extract_data, extract_data_body, extract_json_safely.
  rewrite Hex, Hty, Hload.
  destruct data; try discriminate; reflexivity.
Qed.

Lemma extract_data_scalar_root_witness :
  extract_data (mkEnv (fun _ => true) (fun _ => Ok VNone) (fun _ => None)) "null.json"
  = mkDataFrame [Some "value"] [[VStr ""]].
Proof.
  exact (extract_data_scalar_root
           (mkEnv (fun _ => true) (fun _ => Ok VNone) (fun _ => None))
           "null.json" VNone eq_refl eq_refl eq_refl eq_refl).
Defined.

(* ================================================================== *)
(** ** Further properties: the list normalisation applied twice *)
(* ================================================================== *)

Lemma series_max_le (bound : nat) (l : list nat) :
  Forall (fun n => n <= bound) l -> series_max l <= bound.
Proof.
  unfold series_max. induction 1 as [|n l Hn _ IH]; cbn [fold_right]; lia.
Qed.

Lemma padded_series_of_equal_lists (m : nat) (series : list value) :
  Forall (list_of_length m) series -> padded_series series = series.
Proof.
  intros Hall. unfold padded_series.
  assert (Hmax : series_max (map cell_len series) <= m).
  { apply series_max_le. rewrite Forall_map. revert Hall.
    apply Forall_impl. intros x (l & -> & Hl). simpl. lia. }
  revert Hmax. generalize (series_max (map cell_len series)) as M. intros M HM.
  rewrite <- (map_id series) at 2. apply map_ext_in. intros x Hx.
  rewrite Forall_forall in Hall. destruct (Hall x Hx) as (l & -> & Hl).
  simpl. replace (M - List.length l) with 0 by lia. simpl.
  rewrite app_nil_r. reflexivity.
Qed.

Lemma padded_series_equal_lists (series : list value) :
  Forall (list_of_length (series_max (map cell_len series))) (padded_series series).
Proof.
  unfold padded_series. rewrite Forall_map. rewrite Forall_forall.
  intros x Hx. apply pad_cell_length. apply cell_len_le_series_max. exact Hx.
Qed.

(** X5.  The list normalisation is idempotent on a well-formed frame: a
    second pass keeps the labels and every column of the first. *)
Theorem normalize_list_columns_idempotent (df : DataFrame) (col : pykey) :
  well_formed df ->
  columns (normalize_list_columns (normalize_list_columns df))
  = columns (normalize_list_columns df)
  /\ get_column (normalize_list_columns (normalize_list_columns df)) col
     = get_column (normalize_list_columns df) col.
Proof.
  intros Hwf. unfold normalize_list_columns at 1 3 4.
  fold (normalize_list_columns df).
  destruct (normalize_fold (columns df) df Hwf (proj1 Hwf) (incl_refl _))
    as (Hwf1 & Hcols1 & _ & Hin1 & Hout1).
  fold (normalize_list_columns df) in Hwf1, Hcols1, Hin1, Hout1.
  destruct (normalize_fold (columns (normalize_list_columns df))
              (normalize_list_columns df) Hwf1 (proj1 Hwf1) (incl_refl _))
    as (_ & Hcols2 & _ & Hin2 & Hout2).
  split; [exact Hcols2|].
  destruct (in_dec (fun a b => reflect_dec _ _ (key_eqb_spec a b)) col
                   (columns (normalize_list_columns df))) as [Hc | Hc].
  - rewrite Hin2 by exact Hc. rewrite Hcols1 in Hc.
    rewrite (Hin1 col Hc).
    destruct (existsb is_list (get_column df col)) eqn:Hany.
    + rewrite (padded_series_of_equal_lists _ _ (padded_series_equal_lists _)).
      destruct (existsb is_list (padded_series (get_column df col))); reflexivity.
    + rewrite Hany. reflexivity.
  - apply Hout2. exact Hc.
Qed.

Lemma normalize_list_columns_idempotent_witness :
  well_formed Samples.ragged
  /\ get_column (normalize_list_columns (normalize_list_columns Samples.ragged)) (Some "a")
     = get_column (normalize_list_columns Samples.ragged) (Some "a").
Proof.
  split; [exact ragged_well_formed|].
  exact (proj2 (normalize_list_columns_idempotent Samples.ragged (Some "a")
                  ragged_well_formed)).
Defined.

(* ================================================================== *)
(** ** Further properties: the detected file type *)
(* ================================================================== *)

Lemma contains_app (p : ascii -> bool) (a b : string) :
  PosixPath.contains p (a ++ b) = PosixPath.contains p a || PosixPath.contains p b.
Proof.
  induction a as [|c a IH]; simpl; [reflexivity|].
  rewrite IH. apply orb_assoc.
Qed.

Lemma basename_plain (s : string) :
  PosixPath.contains PosixPath.is_sep s = false -> PosixPath.basename s = s.
Proof.
  destruct s as [|c s]; simpl; [reflexivity|].
  intros H. apply orb_false_iff in H. destruct H as [Hc Hs].
  rewrite Hs, Hc. reflexivity.
Qed.

Lemma basename_join (dir rest : string) :
  PosixPath.contains PosixPath.is_sep rest = false ->
  PosixPath.basename (dir ++ "/" ++ rest) = rest.
Proof.
  intros Hrest. induction dir as [|c dir IH]; simpl.
  - rewrite Hrest. reflexivity.
  - rewrite contains_app. simpl. rewrite orb_true_r. exact IH.
Qed.

Lemma ext_from_without_dot (seen : bool) (s : string) :
  PosixPath.contains PosixPath.is_dot s = false -> PosixPath.ext_from seen s = "".
Proof.
  revert seen. induction s as [|c s IH]; intros seen; simpl; [reflexivity|].
  intros H. apply orb_false_iff in H. destruct H as [Hc Hs].
  rewrite Hc. apply IH. exact Hs.
Qed.

Lemma ext_from_stem (ext stem : string) :
  PosixPath.contains PosixPath.is_dot ext = false ->
  forall seen,
    seen || PosixPath.contains (fun c => negb (PosixPath.is_dot c)) stem = true ->
    PosixPath.ext_from seen (stem ++ "." ++ ext) = ("." ++ ext)%string.
Proof.
  intros Hext. induction stem as [|c stem IH]; intros seen Hseen; simpl in *.
  - rewrite Hext. rewrite orb_false_r in Hseen. rewrite Hseen. reflexivity.
  - destruct (PosixPath.is_dot c) eqn:Hc; simpl in Hseen.
    + rewrite contains_app. simpl. rewrite orb_true_r. apply IH. exact Hseen.
    + apply IH. reflexivity.
Qed.

Lemma is_dot_lower_char (c : ascii) :
  PosixPath.is_dot (lower_char c) = PosixPath.is_dot c.
Proof.
  destruct c as [[] [] [] [] [] [] [] []]; vm_compute; reflexivity.
Qed.

Lemma remove_dots_lower (s : string) :
  PosixPath.contains PosixPath.is_dot s = false -> remove_dots (lower s) = lower s.
Proof.
  induction s as [|c s IH]; simpl; [reflexivity|].
  intros H. apply orb_false_iff in H. destruct H as [Hc Hs].
  rewrite is_dot_lower_char, Hc, IH by exact Hs. reflexivity.
Qed.

(** X9.  For a path whose last component is a stem, a dot and an extension
    -- the stem with some character other than a dot, the extension without
    dot -- the detected file type is the extension in lower case, whatever
    directory comes before and whatever dots the stem holds. *)
Theorem detect_file_type_of_extension (dir stem ext : string) :
  PosixPath.contains PosixPath.is_sep stem = false ->
  PosixPath.contains (fun c => negb (PosixPath.is_dot c)) stem = true ->
  PosixPath.contains PosixPath.is_sep ext = false ->
  PosixPath.contains PosixPath.is_dot ext = false ->
  detect_file_type (dir ++ "/" ++ stem ++ "." ++ ext) = lower ext
  /\ detect_file_type (stem ++ "." ++ ext) = lower ext.
Proof.
  intros Hstem Hnondot Hsep Hdot.
  assert (Hrest : PosixPath.contains PosixPath.is_sep (stem ++ "." ++ ext) = false).
  { rewrite contains_app. simpl. rewrite Hstem, Hsep. reflexivity. }
  assert (Hext : remove_dots (lower (PosixPath.ext_from false (stem ++ "." ++ ext)))
                 = lower ext).
  { rewrite (ext_from_stem ext stem Hdot false) by exact Hnondot.
    simpl. apply remove_dots_lower. exact Hdot. }
  unfold detect_file_type, PosixPath.splitext_ext. split.
  - rewrite basename_join by exact Hrest. exact Hext.
  - rewrite basename_plain by exact Hrest. exact Hext.
Qed.

Lemma detect_file_type_of_extension_witness :
  detect_file_type "exports/2024.q1/sales.report.XLSX" = "xlsx"
  /\ detect_file_type "sales.report.XLSX" = "xlsx".
Proof.
  exact (detect_file_type_of_extension "exports/2024.q1" "sales.report" "XLSX"
           eq_refl eq_refl eq_refl eq_refl).
Defined.

(** X11.  A path whose last component holds no dot, or only the leading
    dot of a hidden file, has the empty file type; unless a reader is
    registered under the empty name, [extract_data] returns the empty frame
    for it. *)
Theorem detect_file_type_without_extension (env : Env) (dir name : string) :
  PosixPath.contains PosixPath.is_sep name = false ->
  PosixPath.contains PosixPath.is_dot name = false ->
  READERS env "" = None ->
  detect_file_type (dir ++ "/" ++ name) = ""
  /\ detect_file_type (dir ++ "/" ++ "." ++ name) = ""
  /\ extract_data env (dir ++ "/" ++ name) = empty_frame
  /\ extract_data env (dir ++ "/" ++ "." ++ name) = empty_frame.
Proof.
  intros Hsep Hdot Hrd.
  assert (H1 : detect_file_type (dir ++ "/" ++ name) = "").
  { unfold detect_file_type, PosixPath.splitext_ext.
    rewrite basename_join by exact Hsep.
    rewrite ext_from_without_dot by exact Hdot. reflexivity. }
  assert (H2 : detect_file_type (dir ++ "/" ++ "." ++ name) = "").
  { unfold detect_file_type, PosixPath.splitext_ext.
    rewrite basename_join by (simpl; exact Hsep).
    simpl. rewrite Hdot. reflexivity. }
  assert (Hrun : forall p, detect_file_type p = "" -> extract_data env p = empty_frame).
  { intros p Hp. unfold extract_data, extract_data_body.
    destruct (negb (path_exists env p)); [reflexivity|].
    rewrite Hp. simpl. rewrite Hrd. reflexivity. }
  auto.
Qed.

Lemma detect_file_type_without_extension_witness :
  detect_file_type "home/user/.bashrc" = ""
  /\ extract_data Samples.bare_env "home/user/Makefile" = empty_frame.
Proof.
  destruct (detect_file_type_without_extension Samples.bare_env "home/user" "bashrc"
              eq_refl eq_refl eq_refl) as (_ & Hhidden & _).
  destruct (detect_file_type_without_extension Samples.bare_env "home/user" "Makefile"
              eq_refl eq_refl eq_refl) as (_ & _ & Hplain & _).
  split; [exact Hhidden | exact Hplain].
Defined.

(* ================================================================== *)
(** ** Further properties: the order of the keys written *)
(* ================================================================== *)

Section RecurseState.
Variable Q : dict -> Prop.
Hypothesis Q_set : forall out k v, Q out -> Q (dict_set out k v).

Lemma recurse_state (v : value) :
  forall p out, Q out -> Q (recurse v p out).
Proof.
  assert (Hleaf : forall v p out, is_scalar v = true ->
              Q out -> Q (recurse v p out)).
  { intros w p out Hw Hout. rewrite recurse_scalar by exact Hw.
    apply Q_set. exact Hout. }
  induction v as [ | b | z | f | s | l IH | d IH] using value_nested_ind; intros p out Hout;
    try (apply Hleaf; [reflexivity | assumption]).
  - rewrite recurse_list. apply fold_left_invariant; [|exact Hout].
    intros a iv Hin Ha. rewrite Forall_forall in IH.
    apply IH; [eapply in_enumerate_from; exact Hin | exact Ha].
  - rewrite recurse_dict. apply fold_left_invariant; [|exact Hout].
    intros a kv Hin Ha. rewrite Forall_forall in IH.
    apply IH; [exact Hin | exact Ha].
Qed.
End RecurseState.

Lemma dict_set_appends_keys (start out : dict) (k : pykey) (v : value) :
  (exists extra, keys out = keys start ++ extra) ->
  exists extra, keys (dict_set out k v) = keys start ++ extra.
Proof.
  intros (extra & Hextra). rewrite keys_dict_set.
  destruct (existsb (key_eqb k) (keys out)).
  - exists extra. exact Hextra.
  - exists (extra ++ [k]). rewrite Hextra. rewrite app_assoc. reflexivity.
Qed.

(** X12.  Both flatteners only ever append keys: whatever they flatten, the
    keys that the output held before keep their places and the new keys
    come after them, in the order in which they were first written; a later
    write to a key changes its value, never its place. *)
Theorem flatteners_append_keys (v : value) (p : pykey) (out : dict) :
  (exists extra, keys (recurse v p out) = keys out ++ extra)
  /\ (exists extra, keys (deep_flatten_value p v out) = keys out ++ extra).
Proof.
  split.
  - apply (recurse_state (fun o => exists extra, keys o = keys out ++ extra)).
    + intros o k x. apply dict_set_appends_keys.
    + exists []. rewrite app_nil_r. reflexivity.
  - apply (deep_flatten_value_state (fun o => exists extra, keys o = keys out ++ extra)).
    + intros o k x. apply dict_set_appends_keys.
    + exists []. rewrite app_nil_r. reflexivity.
Qed.

Lemma strip_by_nonempty (p : ascii -> bool) (s : string) :
  PosixPath.contains (fun c => negb (p c)) s = true ->
  PyStr.is_empty (PyStr.strip_by p s) = false.
Proof.
  induction s as [|c s IH]; simpl; [discriminate|].
  destruct (p c) eqn:Hc; simpl.
  - intros H. unfold PyStr.strip_by in *. simpl. rewrite Hc. apply IH. exact H.
  - intros _. rewrite strip_by_head by exact Hc. reflexivity.
Qed.

Lemma normalize_key_joined (a b : string) :
  normalize_key (Some (a ++ "_" ++ b)%string) = (a ++ "_" ++ b)%string.
Proof.
  unfold normalize_key, PyStr.strip. rewrite strip_by_nonempty; [reflexivity|].
  rewrite contains_app. simpl. apply orb_true_r.
Qed.

(** X13.  Keys of a map that normalize to the same name collide in
    [flatten_json]: of two scalar fields under such keys only the later
    value is kept, under the one composed key, and the earlier is lost. *)
Theorem flatten_json_colliding_keys (p k1 k2 : pykey) (v1 v2 : value) :
  normalize_key k1 = normalize_key k2 ->
  is_scalar v1 = true ->
  is_scalar v2 = true ->
  flatten_json (VDict [(k1, v1); (k2, v2)]) p
  = [(Some (normalize_key p ++ "_" ++ normalize_key k2)%string, none_to_empty v2)].
Proof.
  intros Hk H1 H2. unfold flatten_json. rewrite recurse_dict.
  cbn [fold_left fst snd].
  rewrite (recurse_scalar v1) by exact H1. rewrite (recurse_scalar v2) by exact H2.
  rewrite Hk. rewrite !normalize_key_joined.
  cbn [dict_set]. rewrite key_eqb_refl. reflexivity.
Qed.

Lemma flatten_json_colliding_keys_witness :
  flatten_json (VDict [(Some "", VStr "first"); (Some " ", VStr "second")]) default_prefix
  = [(Some "unknown_unknown", VStr "second")].
Proof.
  exact (flatten_json_colliding_keys default_prefix (Some "") (Some " ")
           (VStr "first") (VStr "second") eq_refl eq_refl eq_refl).
Defined.
